(** * A shallow embedding of pystockwatch (src/pystockwatch/pystockwatch.py)

    The module consists of four functions, each a sequence of input checks,
    calls to the market-data provider (yfinance / pandas_datareader) and a
    small transform over a data frame.  The embedding below keeps that shape:

    - Python values passed as tickers are [pyval];
    - pandas float cells are [num], exact rationals extended with the IEEE
      special values (+inf, -inf, NaN); rounding is not modelled;
    - data frames are lists of rows indexed by a date, with the first level
      of the column labels kept as a list of strings;
    - the provider calls and the date parser of the Python library are
      Section variables, so every theorem holds for every provider;
    - effects are a small state-and-exception monad whose state is the trace
      of provider calls and printed messages. *)

From Stdlib Require Import ZArith QArith List Ascii String Bool Lia Lqa.
Import ListNotations.
Open Scope string_scope.

(** ** Python values and exceptions *)

Inductive pyval :=
| PyStr (s : string)
| PyInt (z : Z)
| PyNone.

Inductive exn :=
| NameError (msg : string)
| ValueError (msg : string)
| TypeError (msg : string)
| AttributeError
| IndexError
| UnboundLocalError
| ProviderError.

(** What a provider call raises: an [AttributeError] (as for a [None] frame)
    or any other failure of the request, which this module never catches. *)
Inductive perr :=
| PAttributeError
| PFailure.

Definition exn_of_perr (e : perr) : exn :=
  match e with PAttributeError => AttributeError | PFailure => ProviderError end.

(** ** Float cells: rationals with +inf, -inf and NaN *)

Inductive num :=
| Fin (q : Q)
| PInf
| NInf
| NaN.

Definition Qlt_bool (a b : Q) : bool := negb (Qle_bool b a).

Definition Qsign_pos (q : Q) : bool := Qlt_bool 0 q.

Definition fsub (a b : num) : num :=
  match a, b with
  | NaN, _ | _, NaN => NaN
  | Fin x, Fin y => Fin (x - y)
  | PInf, PInf | NInf, NInf => NaN
  | PInf, _ => PInf
  | NInf, _ => NInf
  | Fin _, PInf => NInf
  | Fin _, NInf => PInf
  end.

(** An infinity scaled by a finite factor [y]: NaN when [y] is zero. *)
Definition scale_inf (pos : bool) (y : Q) : num :=
  if Qeq_bool y 0 then NaN
  else if Bool.eqb pos (Qsign_pos y) then PInf else NInf.

Definition fmul (a b : num) : num :=
  match a, b with
  | NaN, _ | _, NaN => NaN
  | Fin x, Fin y => Fin (x * y)
  | PInf, Fin y | Fin y, PInf => scale_inf true y
  | NInf, Fin y | Fin y, NInf => scale_inf false y
  | PInf, PInf | NInf, NInf => PInf
  | PInf, NInf | NInf, PInf => NInf
  end.

(** Division; the sign of zero is not modelled, a zero divisor counts as +0. *)
Definition fdiv (a b : num) : num :=
  match a, b with
  | NaN, _ | _, NaN => NaN
  | Fin x, Fin y =>
      if Qeq_bool y 0 then
        (if Qeq_bool x 0 then NaN else if Qsign_pos x then PInf else NInf)
      else Fin (x / y)
  | Fin _, _ => Fin 0
  | PInf, Fin y => if Qlt_bool y 0 then NInf else PInf
  | NInf, Fin y => if Qlt_bool y 0 then PInf else NInf
  | _, _ => NaN
  end.

Definition hundred : num := Fin 100.

(** ** Dates: what [datetime.datetime.strptime(_, "%Y-%m-%d")] returns *)

Record date := mkdate { year : Z; month : Z; day : Z }.

Definition date_eqb (a b : date) : bool :=
  (year a =? year b)%Z && (month a =? month b)%Z && (day a =? day b)%Z.

(** [datetime] ordering: lexicographic on (year, month, day). *)
Definition date_ltb (a b : date) : bool :=
  (year a <? year b)%Z
  || ((year a =? year b)%Z
      && ((month a <? month b)%Z
          || ((month a =? month b)%Z && (day a <? day b)%Z))).

(** ** Data frames *)

(** One row of [yf.download]'s result for one ticker. *)
Record bar := mkbar {
  bar_open : num; bar_high : num; bar_low : num;
  bar_close : num; bar_adj_close : num; bar_volume : num }.

(** [yf.download]'s frame: one row per trading day, one [bar] per ticker. *)
Definition raw_frame := list (date * list bar).

(** A frame: first level of the column labels and the rows, indexed by date. *)
Record frame := mkframe { cols : list string; rows : list (date * list num) }.

(** ** The effect monad: trace of calls and an exception or a value *)

Inductive event :=
| Lookup (t : pyval)                        (* yf.Ticker(t).info *)
| Download (t : pyval) (s e : string)       (* yf.download *)
| DownloadVolume (t : pyval) (s e : string) (* pdr.get_data_yahoo *)
| Print (err : exn).                         (* print(err) *)

Definition M (A : Type) := list event -> list event * (exn + A).

Definition ret {A} (a : A) : M A := fun tr => (tr, inr a).
Definition raise {A} (e : exn) : M A := fun tr => (tr, inl e).
Definition bind {A B} (m : M A) (k : A -> M B) : M B :=
  fun tr => match m tr with
            | (tr', inl e) => (tr', inl e)
            | (tr', inr a) => k a tr'
            end.
Definition emit (ev : event) : M unit := fun tr => (app tr [ev], inr tt).

(** [try: m  except e: handler e] for the exceptions [h] selects. *)
Definition try_except {A} (m : M A) (h : exn -> option (M A)) : M A :=
  fun tr => match m tr with
            | (tr', inl e) =>
                match h e with Some k => k tr' | None => (tr', inl e) end
            | r => r
            end.

Notation "x <- c ;; k" := (bind c (fun x => k))
  (at level 61, c at next level, right associativity).
Notation "c ;;; k" := (bind c (fun _ => k))
  (at level 61, right associativity).

Definition run {A} (m : M A) : list event * (exn + A) := m [].

Definition lift {A} (r : perr + A) : M A :=
  match r with inl e => raise (exn_of_perr e) | inr a => ret a end.

(** ** Frame helpers *)

Fixpoint replace_nth {A} (i : nat) (x : A) (l : list A) : list A :=
  match l, i with
  | [], _ => []
  | _ :: t, O => x :: t
  | y :: t, S j => y :: replace_nth j x t
  end.

(** [(data.iloc[i,:] - data.iloc[0,:]) / data.iloc[0,:] * 100], column-wise. *)
Definition rebase (r r0 : list num) : list num :=
  map (fun '(x, x0) => fmul (fdiv (fsub x x0) x0) hundred) (combine r r0).

(** [data = data.drop(columns={'Open','High','Low','Adj Close','Volume'})] *)
Definition keep_close (raw : raw_frame) : list (date * list num) :=
  map (fun '(d, bs) => (d, map bar_close bs)) raw.

(** One iteration of [for i in range(1, len(data))]. *)
Definition rebase_step (data : list (date * list num)) (i : nat)
  : list (date * list num) :=
  match nth_error data i, nth_error data 0 with
  | Some (d, r), Some (_, r0) => replace_nth i (d, rebase r r0) data
  | _, _ => data
  end.

Definition rebase_loop (data : list (date * list num)) : list (date * list num) :=
  fold_left rebase_step (seq 1 (List.length data - 1)) data.

(** [data.iloc[0,:]]: an [IndexError] on an empty frame. *)
Definition iloc_row (data : list (date * list num)) (i : nat) : M (date * list num) :=
  match nth_error data i with Some r => ret r | None => raise IndexError end.

Definition price_col : string := "Price Change Percentage(%)".

(** ** [pd.merge(left, right, on="Date")] and [rename] *)

Definition str_in (c : string) (l : list string) : bool :=
  existsb (String.eqb c) l.

Definition merge_cols (lc rc : list string) : list string :=
  app (map (fun c => if str_in c rc then String.append c "_x" else c) lc)
      (map (fun c => if str_in c lc then String.append c "_y" else c) rc).

(** Inner join (pandas' default [how='inner']): left rows in order, each
    paired with every right row of the same date. *)
Definition merge_rows (l r : list (date * list num)) : list (date * list num) :=
  flat_map (fun '(d, xs) =>
              map (fun '(_, ys) => (d, app xs ys))
                  (filter (fun '(d', _) => date_eqb d d') r)) l.

Definition merge_on_date (l r : frame) : frame :=
  mkframe (merge_cols (cols l) (cols r)) (merge_rows (rows l) (rows r)).

Fixpoint assoc_str (c : string) (m : list (string * string)) : option string :=
  match m with
  | [] => None
  | (k, v) :: t => if String.eqb c k then Some v else assoc_str c t
  end.

Definition rename_cols (m : list (string * string)) (f : frame) : frame :=
  mkframe (map (fun c => match assoc_str c m with Some c' => c' | None => c end)
               (cols f)) (rows f).

Definition profit_renaming : list (string * string) :=
  [(String.append price_col "_x", "Profit Percent Stock");
   (String.append price_col "_y", "Profit Percent Benchmark")].

(** Lines 162-163. *)
Definition profit_table (stock_profit benchmark_profit : frame) : frame :=
  rename_cols profit_renaming (merge_on_date stock_profit benchmark_profit).

(** ** Volume change classification (lines 243-245) *)

(** [Series.diff()]: NaN ([None]) first, then successive differences. *)
Fixpoint diff_from (prev : Z) (l : list Z) : list (option Z) :=
  match l with
  | [] => []
  | y :: t => Some (y - prev)%Z :: diff_from y t
  end.

Definition series_diff (l : list Z) : list (option Z) :=
  match l with [] => [] | x :: t => None :: diff_from x t end.

(** Comparisons with NaN are false. *)
Definition gt0 (d : option Z) : bool :=
  match d with Some z => (0 <? z)%Z | None => false end.
Definition lt0 (d : option Z) : bool :=
  match d with Some z => (z <? 0)%Z | None => false end.

(** [np.select] on one element: the first true condition picks its choice. *)
Fixpoint np_select_one (cs : list (bool * string)) (default : string) : string :=
  match cs with
  | [] => default
  | (c, v) :: t => if c then v else np_select_one t default
  end.

(** [default=np.nan] is promoted to the string ["nan"] in numpy's string
    result array, which is why line 248 compares with ["nan"]. *)
Definition volume_label (d : option Z) : string :=
  np_select_one [(gt0 d, "Increase"); (lt0 d, "Decrease")] "nan".

Definition volume_labels (vs : list Z) : list string :=
  map volume_label (series_diff vs).

(** Line 248: the indicator is accepted. *)
Definition indicator_ok (s : string) : bool :=
  negb (negb (String.eqb s "Decrease") && negb (String.eqb s "Increase")
        && negb (String.eqb s "nan")).

(** Lines 247-249. *)
Fixpoint check_indicators (l : list string) : M unit :=
  match l with
  | [] => ret tt
  | s :: t =>
      if indicator_ok s then check_indicators t
      else raise (ValueError "Incorrect Volume Change indicator")
  end.

(** ** The public functions *)

Record chart := mkchart {
  chart_data : frame;
  chart_domain : list pyval;    (* [alt.Scale(domain=[stock, benchmark])] *)
  chart_range : list string }.  (* [range=['red', 'blue']] *)

(** [yf.Ticker(t)]: the constructor runs [t.upper()], which only a string
    has; any other value raises [AttributeError] before a request is made. *)
Definition yf_Ticker (t : pyval) : M string :=
  match t with PyStr s => ret s | _ => raise AttributeError end.

Definition is_str (t : pyval) : bool :=
  match t with PyStr _ => true | _ => false end.

Definition msg_ticker := "You have entered an invalid stock ticker! Try again.".
Definition msg_bench :=
  "You have entered an invalid benchmark ticker! Try again.".
Definition msg_start :=
  "You have entered an invalid start date! Try date formatted in YYYY-MM-DD.".
Definition msg_end :=
  "You have entered an invalid end date! Try date formatted in YYYY-MM-DD.".
Definition msg_range :=
  "You have entered an end date which is earlier than the start date! Try again.".
Definition msg_vstart := "You have entered an invalid start date! Try again.".
Definition msg_vend := "You have entered an invalid end date! Try again.".

Section Pystockwatch.

(** [datetime.datetime.strptime(_, "%Y-%m-%d")]: [None] when it raises
    [ValueError]. *)
Variable strptime : string -> option date.

(** [yf.Ticker(t).info["regularMarketPrice"]], a request to the provider:
    the price, [None] for Python's [None], or the exception it raises. *)
Variable ticker_info : string -> perr + option num.

(** [yf.download(t, start=s, end=e)]. *)
Variable yf_download : string -> string -> string -> perr + raw_frame.

(** [pdr.get_data_yahoo(t, start=s, end=e)['Volume'].reset_index()]. *)
Variable get_volume : string -> string -> string -> perr + list (date * Z).

Definition info_price (tk : string) : M (option num) :=
  emit (Lookup (PyStr tk)) ;;; lift (ticker_info tk).

Definition parse_date (s : string) (err : exn) : M date :=
  match strptime s with Some d => ret d | None => raise err end.

Definition percent_change (stock_ticker : pyval) (start_date end_date : string)
  : M frame :=
  tk <- yf_Ticker stock_ticker ;;
  price <- info_price tk ;;
  (if price then ret tt else raise (NameError msg_ticker)) ;;;
  _ <- parse_date start_date (ValueError msg_start) ;;
  _ <- parse_date end_date (ValueError msg_end) ;;
  e <- parse_date end_date (ValueError msg_end) ;;
  s <- parse_date start_date (ValueError msg_start) ;;
  (if date_ltb e s then raise (ValueError msg_range) else ret tt) ;;;
  emit (Download (PyStr tk) start_date end_date) ;;;
  raw <- lift (yf_download tk start_date end_date) ;;
  let data := keep_close raw in
  let data := rebase_loop data in
  row0 <- iloc_row data 0 ;;
  let data := replace_nth 0 (fst row0, rebase (snd row0) (snd row0)) data in
  ret (mkframe [price_col] data).

(** The handler of lines 154-156: [print(err); raise]. *)
Definition print_reraise {A} (e : exn) : option (M A) :=
  match e with
  | TypeError _ | ValueError _ | NameError _ => Some (emit (Print e) ;;; raise e)
  | _ => None
  end.

(** The handler of lines 165-166: [pass], after which line 170 reads the
    unbound [profit_df]. *)
Definition pass_attribute {A} (e : exn) : option (M A) :=
  match e with AttributeError => Some (raise UnboundLocalError) | _ => None end.

Definition profit_viz (stock_ticker : pyval) (start_date end_date : string)
  (benchmark_ticker : pyval) : M chart :=
  ticker <- yf_Ticker stock_ticker ;;
  bench_ticker <- yf_Ticker benchmark_ticker ;;
  try_except (
    p <- info_price ticker ;;
    (if p then ret tt else raise (NameError msg_ticker)) ;;;
    (if is_str stock_ticker then ret tt
     else raise (TypeError "stock_ticker should be of type string.")) ;;;
    bp <- info_price bench_ticker ;;
    (if bp then ret tt else raise (NameError msg_bench)) ;;;
    (if is_str benchmark_ticker then ret tt
     else raise (TypeError "Bench Mark ticker should be of type string.")) ;;;
    _ <- parse_date start_date (ValueError msg_start) ;;
    _ <- parse_date end_date (ValueError msg_end) ;;
    e <- parse_date end_date (ValueError msg_end) ;;
    s <- parse_date start_date (ValueError msg_start) ;;
    (if date_ltb e s then raise (ValueError msg_range) else ret tt))
    print_reraise ;;;
  profit_df <- try_except (
    stock_profit <- percent_change stock_ticker start_date end_date ;;
    benchmark_profit <- percent_change benchmark_ticker start_date end_date ;;
    ret (profit_table stock_profit benchmark_profit))
    pass_attribute ;;
  ret (mkchart profit_df [stock_ticker; benchmark_ticker] ["red"; "blue"]).

(** [yf.pdr_override()] switches the reader to yfinance; it makes no request
    and is not modelled. *)
Definition volume_change (stock_ticker : pyval) (start_date end_date : string)
  : M (list (date * Z * string)) :=
  tk <- yf_Ticker stock_ticker ;;
  price <- info_price tk ;;
  (if price then ret tt else raise (NameError msg_ticker)) ;;;
  _ <- parse_date start_date (ValueError msg_vstart) ;;
  _ <- parse_date end_date (ValueError msg_vend) ;;
  emit (DownloadVolume (PyStr tk) start_date end_date) ;;;
  df <- lift (get_volume tk start_date end_date) ;;
  let labels := volume_labels (map snd df) in
  check_indicators labels ;;;
  ret (map (fun '((d, v), l) => (d, v, l)) (combine df labels)).

(** One [go.Bar] trace: x values, y values, [base], [marker_color], [name]. *)
Record bar_trace := mkbartrace {
  bt_x : list date; bt_y : list Z; bt_base : Z; bt_color : string; bt_name : string }.

(** Rows of [vdf] whose [Volume_Change] equals [label] (lines 279-280). *)
Definition rows_labelled (label : string) (vdf : list (date * Z * string))
  : list (date * Z * string) :=
  filter (fun '(_, _, l) => String.eqb l label) vdf.

Definition bars_of (vdf : list (date * Z * string)) (color name : string)
  : bar_trace :=
  mkbartrace (map (fun '(d, _, _) => d) vdf) (map (fun '(_, v, _) => v) vdf)
             0%Z color name.

(** [volume_viz]: the figure [fig.show()] displays (the function itself
    returns [None]).  Its [except AttributeError: pass] leaves [vdf]
    unbound, so line 279 raises [UnboundLocalError]. *)
Definition volume_viz (stock_ticker : pyval) (start_date end_date : string)
  : M (list bar_trace) :=
  vdf <- try_except (volume_change stock_ticker start_date end_date)
                    pass_attribute ;;
  let vdf_increase := rows_labelled "Increase" vdf in
  let vdf_decrease := rows_labelled "Decrease" vdf in
  ret [bars_of vdf_increase "green" "Volume Increase";
       bars_of vdf_decrease "red" "Volume Decrease"].

End Pystockwatch.

(** ** A concrete provider and date parser, for evaluating the functions *)

Module Sample.

Definition digit (c : Ascii.ascii) : option Z :=
  let n := Ascii.nat_of_ascii c in
  if (48 <=? n)%nat && (n <=? 57)%nat then Some (Z.of_nat (n - 48)%nat) else None.

Fixpoint digits (acc : Z) (l : list Ascii.ascii) : option Z :=
  match l with
  | [] => Some acc
  | c :: t => match digit c with
              | Some k => digits (acc * 10 + k)%Z t
              | None => None
              end
  end.

Definition leap (y : Z) : bool :=
  (Z.modulo y 4 =? 0)%Z && (negb (Z.modulo y 100 =? 0)%Z || (Z.modulo y 400 =? 0)%Z).

Definition days_in_month (y m : Z) : Z :=
  if (m =? 2)%Z then (if leap y then 29 else 28)%Z
  else if existsb (Z.eqb m) [4; 6; 9; 11]%Z then 30%Z else 31%Z.

(** Accepts exactly [DDDD-DD-DD] naming a real calendar day. *)
Definition strptime_ymd (s : string) : option date :=
  match list_ascii_of_string s with
  | [y1; y2; y3; y4; "-"%char; m1; m2; "-"%char; d1; d2] =>
      match digits 0 [y1; y2; y3; y4], digits 0 [m1; m2], digits 0 [d1; d2] with
      | Some y, Some m, Some d =>
          if (1 <=? y)%Z && (1 <=? m)%Z && (m <=? 12)%Z && (1 <=? d)%Z
             && (d <=? days_in_month y m)%Z
          then Some (mkdate y m d) else None
      | _, _, _ => None
      end
  | _ => None
  end.

Definition jan (d : Z) : date := mkdate 2020 1 d.

Definition close_bar (c : num) : bar := mkbar c c c c c (Fin 1000).

Definition ticker_info (t : string) : perr + option num :=
  if String.eqb t "AAPL" then inr (Some (Fin 150))
  else if String.eqb t "SPY" then inr (Some (Fin 400))
  else if String.eqb t "NEWCO" then inr (Some (Fin 10))
  else if String.eqb t "ZERO" then inr (Some (Fin 0))
  else if String.eqb t "DELISTED" then inr (Some (Fin 1))
  else inr None.

(** AAPL trades on Jan 3, 6, 7; SPY on Jan 6, 7, 8; NEWCO's first close
    is missing (NaN); ZERO's first close is 0; nothing for other names,
    DELISTED among them. *)
Definition yf_download (t s e : string) : perr + raw_frame :=
  if String.eqb t "AAPL" then
    inr [(jan 3, [close_bar (Fin 100)]); (jan 6, [close_bar (Fin 110)]);
         (jan 7, [close_bar (Fin 95)])]
  else if String.eqb t "SPY" then
    inr [(jan 6, [close_bar (Fin 200)]); (jan 7, [close_bar (Fin 210)]);
         (jan 8, [close_bar (Fin 220)])]
  else if String.eqb t "NEWCO" then
    inr [(jan 3, [close_bar NaN]); (jan 6, [close_bar (Fin 12)])]
  else if String.eqb t "ZERO" then
    inr [(jan 3, [close_bar (Fin 0)]); (jan 6, [close_bar (Fin 1)])]
  else inr [].

Definition get_volume (t s e : string) : perr + list (date * Z) :=
  if String.eqb t "AAPL" then
    inr [(jan 3, 1000%Z); (jan 6, 2000%Z); (jan 7, 2000%Z); (jan 8, 1500%Z)]
  else inr [].

Definition percent_change := percent_change strptime_ymd ticker_info yf_download.
Definition profit_viz := profit_viz strptime_ymd ticker_info yf_download.
Definition volume_change := volume_change strptime_ymd ticker_info get_volume.
Definition volume_viz := volume_viz strptime_ymd ticker_info get_volume.

End Sample.

(** A provider whose history requests raise [AttributeError], as when the
    downloaded frame is [None]. *)
Module Faulty.

Definition yf_download (t s e : string) : perr + raw_frame := inl PAttributeError.
Definition get_volume (t s e : string) : perr + list (date * Z) :=
  inl PAttributeError.

Definition profit_viz :=
  profit_viz Sample.strptime_ymd Sample.ticker_info yf_download.
Definition volume_viz :=
  volume_viz Sample.strptime_ymd Sample.ticker_info get_volume.
Definition volume_change :=
  volume_change Sample.strptime_ymd Sample.ticker_info get_volume.

End Faulty.

(** The exceptions the input checks raise. *)
Definition is_validation_error (e : exn) : bool :=
  match e with NameError _ | ValueError _ | TypeError _ => true | _ => false end.

(** Events that are not a download of price or volume history. *)
Definition no_download (ev : event) : bool :=
  match ev with Download _ _ _ | DownloadVolume _ _ _ => false | _ => true end.

(** * Proofs *)

Open Scope nat_scope.

(** ** List lemmas *)

Lemma nth_error_replace_nth {A} (l : list A) (i j : nat) (x : A) :
  nth_error (replace_nth i x l) j =
  if Nat.eqb i j then (if Nat.ltb i (List.length l) then Some x else None)
  else nth_error l j.
Proof.
  revert i j; induction l as [|y t IH]; intros [|i] [|j]; cbn;
    try reflexivity; try (destruct (Nat.eqb i j); reflexivity).
  rewrite IH. destruct (Nat.eqb i j); reflexivity.
Qed.

Lemma replace_nth_length {A} (l : list A) i x :
  List.length (replace_nth i x l) = List.length l.
Proof.
  revert i; induction l; intros [|i]; cbn; auto.
Qed.

(** Row [j] once the loop has rebased it against row 0. *)
Definition rebased_row (data : list (date * list num)) (j : nat)
  : option (date * list num) :=
  match nth_error data j, nth_error data 0 with
  | Some (d, r), Some (_, r0) => Some (d, rebase r r0)
  | o, _ => o
  end.

Lemma rebase_step_nth data a j :
  1 <= a ->
  nth_error (rebase_step data a) j =
  if Nat.eqb a j then rebased_row data j else nth_error data j.
Proof.
  intros Ha. unfold rebase_step, rebased_row.
  destruct (Nat.eqb a j) eqn:Eaj.
  - apply Nat.eqb_eq in Eaj; subst j.
    destruct (nth_error data a) as [[d r]|] eqn:Ea; [|congruence].
    destruct (nth_error data 0) as [[d0 r0]|]; [|congruence].
    rewrite nth_error_replace_nth, Nat.eqb_refl.
    assert (Hlt : a < List.length data) by (apply nth_error_Some; congruence).
    apply Nat.ltb_lt in Hlt; now rewrite Hlt.
  - destruct (nth_error data a) as [[d r]|]; [|congruence].
    destruct (nth_error data 0) as [[d0 r0]|]; [|congruence].
    now rewrite nth_error_replace_nth, Eaj.
Qed.

Lemma rebase_step_length data a :
  List.length (rebase_step data a) = List.length data.
Proof.
  unfold rebase_step.
  destruct (nth_error data a) as [[d r]|]; [|reflexivity].
  destruct (nth_error data 0) as [[d0 r0]|]; [|reflexivity].
  apply replace_nth_length.
Qed.

(** The loop over [seq a n] rebases rows [a .. a+n-1] and leaves the others,
    row 0 included, as they were. *)
Lemma fold_rebase_nth n : forall a data j,
  1 <= a ->
  nth_error (fold_left rebase_step (seq a n) data) j =
  if (Nat.leb a j && Nat.ltb j (a + n))%bool then rebased_row data j
  else nth_error data j.
Proof.
  induction n as [|n IH]; intros a data j Ha.
  - cbn [seq fold_left].
    destruct (Nat.leb a j) eqn:E1, (Nat.ltb j (a + 0)) eqn:E2; try reflexivity.
    apply Nat.leb_le in E1; apply Nat.ltb_lt in E2; lia.
  - cbn [seq fold_left]. rewrite IH by lia.
    rewrite !rebase_step_nth by lia.
    assert (H0 : nth_error (rebase_step data a) 0 = nth_error data 0).
    { rewrite rebase_step_nth by lia.
      destruct (Nat.eqb a 0) eqn:E; [apply Nat.eqb_eq in E; lia|reflexivity]. }
    unfold rebased_row at 1. rewrite H0, rebase_step_nth by lia.
    destruct (Nat.eqb a j) eqn:Eaj.
    + apply Nat.eqb_eq in Eaj; subst j.
      replace (Nat.leb (S a) a) with false
        by (symmetry; apply Nat.leb_gt; lia).
      replace (Nat.leb a a && Nat.ltb a (a + S n))%bool with true; cbn; auto.
      symmetry; apply andb_true_intro; split;
        [apply Nat.leb_le|apply Nat.ltb_lt]; lia.
    + apply Nat.eqb_neq in Eaj.
      destruct (Nat.leb (S a) j && Nat.ltb j (S a + n))%bool eqn:E1;
      destruct (Nat.leb a j && Nat.ltb j (a + S n))%bool eqn:E2; auto;
      repeat match goal with
      | H : (_ && _)%bool = true |- _ => apply andb_prop in H; destruct H
      | H : (_ && _)%bool = false |- _ => apply andb_false_iff in H; destruct H
      | H : Nat.leb _ _ = true |- _ => apply Nat.leb_le in H
      | H : Nat.leb _ _ = false |- _ => apply Nat.leb_gt in H
      | H : Nat.ltb _ _ = true |- _ => apply Nat.ltb_lt in H
      | H : Nat.ltb _ _ = false |- _ => apply Nat.ltb_ge in H
      end; try lia.
Qed.

Lemma rebase_loop_nth data j :
  nth_error (rebase_loop data) j =
  if Nat.leb 1 j then rebased_row data j else nth_error data j.
Proof.
  unfold rebase_loop. rewrite fold_rebase_nth by lia.
  destruct (Nat.leb 1 j) eqn:E1; cbn [andb]; [|reflexivity].
  destruct (Nat.ltb j (1 + (List.length data - 1))) eqn:E2; [reflexivity|].
  apply Nat.ltb_ge in E2.
  assert (Hn : nth_error data j = None) by (apply nth_error_None; lia).
  unfold rebased_row. now rewrite Hn.
Qed.

Lemma rebase_loop_length data :
  List.length (rebase_loop data) = List.length data.
Proof.
  unfold rebase_loop. generalize (seq 1 (List.length data - 1)).
  intros l; revert data; induction l as [|a l IH]; intros data; cbn; auto.
  now rewrite IH, rebase_step_length.
Qed.

Section Proofs.

Variable strptime : string -> option date.
Variable ticker_info : string -> perr + option num.
Variable yf_download : string -> string -> string -> perr + raw_frame.
Variable get_volume : string -> string -> string -> perr + list (date * Z).

Abbreviation pc := (percent_change strptime ticker_info yf_download).
Abbreviation pv := (profit_viz strptime ticker_info yf_download).
Abbreviation vc := (volume_change strptime ticker_info get_volume).

(** A successful [percent_change] is the rebasing of the downloaded closes. *)
Lemma percent_change_success t s e tr out :
  run (pc t s e) = (tr, inr out) ->
  exists tk raw d0 r0,
    t = PyStr tk /\ yf_download tk s e = inr raw /\
    nth_error (keep_close raw) 0 = Some (d0, r0) /\
    cols out = [price_col] /\
    rows out = replace_nth 0 (d0, rebase r0 r0) (rebase_loop (keep_close raw)).
Proof.
  intros H.
  unfold run, percent_change, bind, ret, raise, emit, lift, info_price,
    parse_date, yf_Ticker, iloc_row in H.
  destruct t as [tk| |]; cbn in H; try discriminate.
  destruct (ticker_info tk) as [pe|[p|]]; cbn in H; try discriminate.
  destruct (strptime s) as [ds|]; cbn in H; try discriminate.
  destruct (strptime e) as [de|]; cbn in H; try discriminate.
  destruct (date_ltb de ds); cbn in H; try discriminate.
  destruct (yf_download tk s e) as [pe|raw] eqn:Ed; cbn in H; try discriminate.
  destruct (rebase_loop (keep_close raw)) as [|[d0 r0] rest] eqn:E0;
    cbn in H; try discriminate.
  injection H as <- <-.
  assert (H0 : nth_error (rebase_loop (keep_close raw)) 0 = Some (d0, r0))
    by (rewrite E0; reflexivity).
  rewrite rebase_loop_nth in H0.
  exists tk, raw, d0, r0. repeat split; auto.
  cbn [rows]. now rewrite E0.
Qed.

Lemma keep_close_nth raw i :
  nth_error (keep_close raw) i =
  option_map (fun '(d, bs) => (d, map bar_close bs)) (nth_error raw i).
Proof.
  unfold keep_close. rewrite nth_error_map.
  destruct (nth_error raw i) as [[d bs]|]; reflexivity.
Qed.

(** Column-wise value of row 0 after line 83. *)
Definition finite_nonzero (c : num) : bool :=
  match c with Fin q => negb (Qeq_bool q 0) | _ => false end.

Lemma rebase_self_cell (c : num) :
  (finite_nonzero c = true ->
   exists z, fmul (fdiv (fsub c c) c) hundred = Fin z /\ (z == 0)%Q) /\
  (finite_nonzero c = false -> fmul (fdiv (fsub c c) c) hundred = NaN).
Proof.
  destruct c as [q| | |]; cbn; split; intros H; try discriminate; auto.
  - destruct (Qeq_bool q 0) eqn:Eq; cbn in H; try discriminate.
    eexists; split; [reflexivity|]. unfold Qdiv. ring.
  - destruct (Qeq_bool q 0) eqn:Eq; cbn in H; try discriminate.
    apply Qeq_bool_iff in Eq.
    assert (Hz : Qeq_bool (q - q) 0 = true)
      by (apply Qeq_bool_iff; rewrite Eq; reflexivity).
    now rewrite Hz.
Qed.

(** ** C1: rows after the first are rebased on the first row *)

(** C1: for every row [i > 0] of the downloaded frame, row [i] of
    [percent_change]'s result keeps the date and holds, for each ticker's
    column independently, [(Close[i] - Close[0]) / Close[0] * 100]. *)
Theorem percent_change_rebases_rows tk s e tr out raw :
  run (pc (PyStr tk) s e) = (tr, inr out) ->
  yf_download tk s e = inr raw ->
  forall i d bs d0 bs0, 0 < i ->
  nth_error raw i = Some (d, bs) ->
  nth_error raw 0 = Some (d0, bs0) ->
  nth_error (rows out) i =
    Some (d, map (fun '(c, c0) => fmul (fdiv (fsub c c0) c0) hundred)
                 (combine (map bar_close bs) (map bar_close bs0))).
Proof.
  intros Hrun Hdl i d bs d0 bs0 Hi Hri Hr0.
  destruct (percent_change_success _ _ _ _ _ Hrun)
    as (tk' & raw' & d0' & r0' & Ht & Hdl' & _ & _ & Hrows).
  injection Ht as <-. rewrite Hdl in Hdl'. injection Hdl' as <-.
  rewrite Hrows, nth_error_replace_nth.
  destruct i as [|i]; [lia|]. cbn [Nat.eqb].
  rewrite rebase_loop_nth. cbn [Nat.leb].
  unfold rebased_row. rewrite !keep_close_nth, Hri, Hr0. reflexivity.
Qed.

(** ** C5: the first row *)

(** C5 (amended): row 0 of [percent_change]'s result keeps the first date,
    and a column whose [Close[0]] is a finite nonzero number holds exactly 0
    there, while a column whose [Close[0]] is 0, infinite or missing (NaN)
    holds NaN. *)
Theorem percent_change_first_row tk s e tr out raw d0 bs0 :
  run (pc (PyStr tk) s e) = (tr, inr out) ->
  yf_download tk s e = inr raw ->
  nth_error raw 0 = Some (d0, bs0) ->
  exists r0, nth_error (rows out) 0 = Some (d0, r0) /\
    forall k c, nth_error (map bar_close bs0) k = Some c ->
      (finite_nonzero c = true -> exists z, nth_error r0 k = Some (Fin z) /\ (z == 0)%Q) /\
      (finite_nonzero c = false -> nth_error r0 k = Some NaN).
Proof.
  intros Hrun Hdl Hr0.
  destruct (percent_change_success _ _ _ _ _ Hrun)
    as (tk' & raw' & d0' & r0' & Ht & Hdl' & H0 & _ & Hrows).
  injection Ht as <-. rewrite Hdl in Hdl'. injection Hdl' as <-.
  rewrite keep_close_nth, Hr0 in H0. cbn in H0. injection H0 as <- <-.
  exists (rebase (map bar_close bs0) (map bar_close bs0)). split.
  - rewrite Hrows, nth_error_replace_nth. cbn [Nat.eqb Nat.ltb Nat.leb].
    rewrite rebase_loop_length.
    assert (Hl : 0 < List.length (keep_close raw))
      by (unfold keep_close; rewrite length_map;
          destruct raw; [discriminate|cbn; lia]).
    destruct (List.length (keep_close raw)); [lia|reflexivity].
  - intros k c Hc. unfold rebase.
    rewrite nth_error_map.
    assert (Hk : nth_error (combine (map bar_close bs0) (map bar_close bs0)) k
                 = Some (c, c)).
    { generalize (map bar_close bs0) Hc. clear.
      intros l; revert k; induction l as [|x l IH]; intros [|k] H;
        cbn in *; try discriminate.
      - now injection H as ->.
      - now apply IH. }
    rewrite Hk. cbn.
    destruct (rebase_self_cell c) as [Hnz Hz]. split.
    + intros Hc'. destruct (Hnz Hc') as (z & -> & Hz0). eauto.
    + intros Hc'. now rewrite (Hz Hc').
Qed.

(** ** C10: an empty download *)

(** C10: when the download returns no rows, [percent_change] returns no
    frame: indexing row 0 at line 83 fails. *)
Theorem percent_change_empty_download tk s e :
  yf_download tk s e = inr [] ->
  forall tr out, run (pc (PyStr tk) s e) <> (tr, inr out).
Proof.
  intros Hdl tr out Hrun.
  destruct (percent_change_success _ _ _ _ _ Hrun)
    as (tk' & raw' & d0' & r0' & Ht & Hdl' & H0 & _ & _).
  injection Ht as <-. rewrite Hdl in Hdl'. injection Hdl' as <-.
  discriminate H0.
Qed.

(** ** Order of the checks in [percent_change] *)

Ltac pc_unfold H :=
  unfold percent_change, bind, ret, raise, emit, lift, info_price,
    parse_date, yf_Ticker, iloc_row in H.

Lemma exn_of_perr_not_validation pe :
  is_validation_error (exn_of_perr pe) = false.
Proof. now destruct pe. Qed.

(** Any run of [percent_change] extends the trace; when it raises a check's
    exception, nothing it added is a download. *)
Lemma percent_change_trace t s e tr0 tr r :
  pc t s e tr0 = (tr, r) ->
  exists ext, tr = app tr0 ext /\
    (forall err, r = inl err -> is_validation_error err = true ->
                 forallb no_download ext = true).
Proof.
  intros H. pc_unfold H.
  destruct t as [tk| |]; cbn in H;
    [|injection H as <- <-; exists []; rewrite app_nil_r; split;
      [reflexivity|intros err [= <-]; discriminate]..].
  destruct (ticker_info tk) as [pe|[p|]]; cbn in H;
    [| |injection H as <- <-; eexists; split; [reflexivity|]; intros; reflexivity].
  { injection H as <- <-; eexists; split; [reflexivity|].
    intros err [= <-]. now rewrite exn_of_perr_not_validation. }
  destruct (strptime s) as [ds|]; cbn in H;
    [|injection H as <- <-; eexists; split; [reflexivity|]; intros; reflexivity].
  destruct (strptime e) as [de|]; cbn in H;
    [|injection H as <- <-; eexists; split; [reflexivity|]; intros; reflexivity].
  destruct (date_ltb de ds); cbn in H;
    [injection H as <- <-; eexists; split; [reflexivity|]; intros; reflexivity|].
  rewrite <- app_assoc in H. cbn in H.
  destruct (yf_download tk s e) as [pe|raw]; cbn in H.
  { injection H as <- <-; eexists; split; [reflexivity|].
    intros err [= <-]. now rewrite exn_of_perr_not_validation. }
  destruct (rebase_loop (keep_close raw)) as [|[d0 r0] rest]; cbn in H;
    injection H as <- <-; eexists; split; try reflexivity;
    intros err Herr Hv; inversion Herr; subst; discriminate.
Qed.

(** Once the checks pass for these inputs, [percent_change] raises no
    check's exception. *)
Lemma percent_change_checked tk s e p ds de tr0 tr err :
  ticker_info tk = inr (Some p) -> strptime s = Some ds ->
  strptime e = Some de -> date_ltb de ds = false ->
  pc (PyStr tk) s e tr0 = (tr, inl err) -> is_validation_error err = false.
Proof.
  intros Hi Hs He Hlt H. pc_unfold H. cbn in H.
  rewrite Hi, Hs, He in H. cbn in H. rewrite Hlt in H. cbn in H.
  destruct (yf_download tk s e) as [pe|raw]; cbn in H.
  - injection H as _ <-. apply exn_of_perr_not_validation.
  - destruct (rebase_loop (keep_close raw)) as [|[d0 r0] rest]; cbn in H;
      injection H as _ H; [now subst|discriminate].
Qed.

(** ** C9: the date-range check *)

(** C9: for a ticker with a market price and two dates that parse,
    [percent_change] raises the range error exactly when the end date
    precedes the start date; in particular equal dates raise no range
    error. *)
Theorem percent_change_range_error tk s e p ds de :
  ticker_info tk = inr (Some p) -> strptime s = Some ds -> strptime e = Some de ->
  (snd (run (pc (PyStr tk) s e)) = inl (ValueError msg_range) <->
   date_ltb de ds = true) /\
  (ds = de -> snd (run (pc (PyStr tk) s e)) <> inl (ValueError msg_range)).
Proof using strptime ticker_info yf_download.
  intros Hi Hs He.
  assert (Hiff : snd (run (pc (PyStr tk) s e)) = inl (ValueError msg_range) <->
                 date_ltb de ds = true).
  { destruct (date_ltb de ds) eqn:Hlt.
    - unfold run, percent_change, bind, ret, raise, emit, lift, info_price,
        parse_date, yf_Ticker, iloc_row.
      cbn. rewrite Hi, Hs, He. cbn. rewrite Hlt.
      cbn. split; intros _; reflexivity.
    - split; [|discriminate]. intros Hr.
      destruct (run (pc (PyStr tk) s e)) as [tr r] eqn:Hrun.
      cbn in Hr. subst r. unfold run in Hrun.
      pose proof (percent_change_checked _ _ _ _ _ _ _ _ _ Hi Hs He Hlt Hrun).
      discriminate. }
  split; [exact Hiff|].
  intros <- Hr. apply Hiff in Hr.
  unfold date_ltb in Hr. rewrite !Z.ltb_irrefl, !Z.eqb_refl in Hr.
  discriminate.
Qed.

(** ** The volume labels *)

Lemma diff_from_nth l : forall p j y x,
  nth_error (p :: l) (S j) = Some y -> nth_error (p :: l) j = Some x ->
  nth_error (diff_from p l) j = Some (Some (y - x)%Z).
Proof.
  induction l as [|a t IH]; intros p [|j] y x Hy Hx; cbn in *;
    try discriminate.
  - injection Hy as <-; injection Hx as <-; reflexivity.
  - now apply IH.
Qed.

Lemma diff_from_length l : forall p, List.length (diff_from p l) = List.length l.
Proof. induction l; intros; cbn; auto. Qed.

Lemma volume_labels_length vs : List.length (volume_labels vs) = List.length vs.
Proof.
  unfold volume_labels, series_diff. rewrite length_map.
  destruct vs; cbn; auto using diff_from_length.
Qed.

Lemma volume_labels_first vs l :
  nth_error (volume_labels vs) 0 = Some l -> l = "nan".
Proof.
  unfold volume_labels, series_diff. destruct vs; cbn; [discriminate|].
  now injection 1 as <-.
Qed.

Lemma volume_labels_next vs i v v' :
  nth_error vs (S i) = Some v -> nth_error vs i = Some v' ->
  nth_error (volume_labels vs) (S i) = Some (volume_label (Some (v - v')%Z)).
Proof.
  intros Hv Hv'. unfold volume_labels, series_diff.
  destruct vs as [|x t]; [destruct i; discriminate|].
  rewrite nth_error_map. cbn [nth_error].
  now rewrite (diff_from_nth t x i v v' Hv Hv').
Qed.

Lemma volume_label_cases z :
  (volume_label (Some z) = "Increase" <-> (0 < z)%Z) /\
  (volume_label (Some z) = "Decrease" <-> (z < 0)%Z) /\
  (volume_label (Some z) = "nan" <-> z = 0%Z).
Proof.
  unfold volume_label; cbn.
  destruct (0 <? z)%Z eqn:E1; [apply Z.ltb_lt in E1|apply Z.ltb_ge in E1];
  [|destruct (z <? 0)%Z eqn:E2; [apply Z.ltb_lt in E2|apply Z.ltb_ge in E2]];
  repeat split; intros H; try discriminate; try reflexivity; lia.
Qed.

Lemma volume_label_allowed d :
  volume_label d = "Increase" \/ volume_label d = "Decrease" \/
  volume_label d = "nan".
Proof.
  unfold volume_label; cbn.
  destruct (gt0 d); [|destruct (lt0 d)]; auto.
Qed.

Lemma check_indicators_labels vs tr :
  check_indicators (volume_labels vs) tr = (tr, inr tt).
Proof.
  unfold volume_labels. generalize (series_diff vs) as ds.
  induction ds as [|d ds IH]; [reflexivity|].
  cbn [map check_indicators].
  destruct (volume_label_allowed d) as [H|[H|H]]; rewrite H; exact IH.
Qed.

Ltac vc_unfold H :=
  unfold volume_change, bind, ret, raise, emit, lift, info_price,
    parse_date, yf_Ticker in H.

(** A successful [volume_change] labels the downloaded volumes. *)
Lemma volume_change_success t s e tr out :
  run (vc t s e) = (tr, inr out) ->
  exists df, out = map (fun '((d, v), l) => (d, v, l))
                       (combine df (volume_labels (map snd df))).
Proof.
  intros H. unfold run in H. vc_unfold H.
  destruct t as [tk| |]; cbn in H; try discriminate.
  destruct (ticker_info tk) as [pe|[p|]]; cbn in H; try discriminate.
  destruct (strptime s) as [ds|]; cbn in H; try discriminate.
  destruct (strptime e) as [de|]; cbn in H; try discriminate.
  destruct (get_volume tk s e) as [pe|df]; cbn in H; try discriminate.
  rewrite check_indicators_labels in H. injection H as _ <-. eauto.
Qed.

Lemma combine_labels_proj (df : list (date * Z)) :
  map (fun '(_, v, _) => v)
      (map (fun '((d, v), l) => (d, v, l)) (combine df (volume_labels (map snd df))))
  = map snd df /\
  map (fun '(_, _, l) => l)
      (map (fun '((d, v), l) => (d, v, l)) (combine df (volume_labels (map snd df))))
  = volume_labels (map snd df).
Proof.
  assert (Hlen : List.length df = List.length (volume_labels (map snd df)))
    by now rewrite volume_labels_length, length_map.
  revert Hlen. generalize (volume_labels (map snd df)) as ls.
  induction df as [|[d v] df IH]; intros [|l ls] Hl; cbn in *;
    try discriminate; auto.
  injection Hl as Hl. destruct (IH ls Hl) as [H1 H2]. now rewrite H1, H2.
Qed.

(** ** C2: the volume change labels *)

(** C2: in every frame [volume_change] returns, the label of the first row
    is the undefined label ["nan"], and the label of each later row is
    ["Increase"] iff its volume exceeds the previous row's, ["Decrease"] iff
    it is below it, and ["nan"] iff the two are equal. *)
Theorem volume_change_labels t s e tr out :
  run (vc t s e) = (tr, inr out) ->
  (forall l, nth_error (map (fun '(_, _, l) => l) out) 0 = Some l -> l = "nan") /\
  (forall i v v' l,
     nth_error (map (fun '(_, v, _) => v) out) (S i) = Some v ->
     nth_error (map (fun '(_, v, _) => v) out) i = Some v' ->
     nth_error (map (fun '(_, _, l) => l) out) (S i) = Some l ->
     (l = "Increase" <-> (v' < v)%Z) /\ (l = "Decrease" <-> (v < v')%Z) /\
     (l = "nan" <-> v = v')).
Proof.
  intros H. destruct (volume_change_success _ _ _ _ _ H) as [df ->].
  destruct (combine_labels_proj df) as [Hv Hl]. rewrite Hv, Hl.
  split; [apply volume_labels_first|].
  intros i v v' l H1 H2 H3.
  rewrite (volume_labels_next _ _ _ _ H1 H2) in H3. injection H3 as <-.
  destruct (volume_label_cases (v - v')%Z) as (A & B & C).
  rewrite A, B, C. lia.
Qed.

(** ** C7: the indicator check never fails *)

(** C7: every label the classification produces is ["Increase"],
    ["Decrease"] or ["nan"], so the check of lines 247-249 passes and
    [volume_change] never raises its ["Incorrect Volume Change indicator"]
    error. *)
Theorem volume_change_indicator_check_unreachable t s e vs :
  Forall (fun l => l = "Increase" \/ l = "Decrease" \/ l = "nan")
         (volume_labels vs) /\
  snd (run (vc t s e)) <> inl (ValueError "Incorrect Volume Change indicator").
Proof.
  split.
  { unfold volume_labels. apply Forall_map, Forall_forall.
    intros d _. apply volume_label_allowed. }
  unfold run, volume_change, bind, ret, raise, emit, lift, info_price,
    parse_date, yf_Ticker.
  destruct t as [tk| |]; cbn; try discriminate.
  destruct (ticker_info tk) as [[]|[p|]]; cbn; try discriminate.
  destruct (strptime s) as [ds|]; cbn; try discriminate.
  destruct (strptime e) as [de|]; cbn; try discriminate.
  destruct (get_volume tk s e) as [[]|df]; cbn; try discriminate.
  rewrite check_indicators_labels. discriminate.
Qed.

(** ** The join of [profit_viz] *)

Lemma date_eqb_eq a b : date_eqb a b = true <-> a = b.
Proof.
  destruct a as [y m d], b as [y' m' d']. unfold date_eqb; cbn.
  rewrite !andb_true_iff, !Z.eqb_eq. split.
  - intros [[-> ->] ->]; reflexivity.
  - intros H; injection H as -> -> ->; auto.
Qed.

Lemma merge_rows_dates l r d :
  In d (map fst (merge_rows l r)) <-> In d (map fst l) /\ In d (map fst r).
Proof.
  unfold merge_rows. rewrite in_map_iff. split.
  - intros [row [Hd Hin]]. apply in_flat_map in Hin as [[dx xs] [Hl Hin]].
    apply in_map_iff in Hin as [[d' ys] [Hrow Hf]].
    apply filter_In in Hf as [Hr Heq]. apply date_eqb_eq in Heq.
    subst row d d'. cbn. split.
    + apply in_map_iff. exists (dx, xs); auto.
    + apply in_map_iff. exists (dx, ys); auto.
  - intros [Hl Hr]. apply in_map_iff in Hl as [[dx xs] [Hdx Hl]].
    apply in_map_iff in Hr as [[d' ys] [Hd' Hr]]. cbn in Hdx, Hd'. subst dx d'.
    exists (d, app xs ys). split; [reflexivity|].
    apply in_flat_map. exists (d, xs). split; [exact Hl|].
    apply in_map_iff. exists (d, ys). split; [reflexivity|].
    apply filter_In. split; [exact Hr|]. now apply date_eqb_eq.
Qed.

Lemma profit_table_dates sp bp d :
  In d (map fst (rows (profit_table sp bp))) <->
  In d (map fst (rows sp)) /\ In d (map fst (rows bp)).
Proof. apply merge_rows_dates. Qed.

Lemma profit_table_cols sp bp :
  cols sp = [price_col] -> cols bp = [price_col] ->
  cols (profit_table sp bp) = ["Profit Percent Stock"; "Profit Percent Benchmark"].
Proof.
  unfold profit_table, rename_cols, merge_on_date. cbn [cols].
  intros -> ->. reflexivity.
Qed.

(** [percent_change] only appends to the trace: its outcome does not depend
    on the events before it. *)
Lemma percent_change_outcome t s e tr0 tr1 :
  snd (pc t s e tr0) = snd (pc t s e tr1).
Proof.
  unfold percent_change, bind, ret, raise, emit, lift, info_price,
    parse_date, yf_Ticker, iloc_row.
  destruct t as [tk| |]; cbn; auto.
  destruct (ticker_info tk) as [pe|[p|]]; cbn; auto.
  destruct (strptime s) as [ds|]; cbn; auto.
  destruct (strptime e) as [de|]; cbn; auto.
  destruct (date_ltb de ds); cbn; auto.
  destruct (yf_download tk s e) as [pe|raw]; cbn; auto.
  destruct (rebase_loop (keep_close raw)) as [|[d0 r0] rest]; cbn; auto.
Qed.

Ltac pv_unfold H :=
  unfold profit_viz in H;
  remember (percent_change strptime ticker_info yf_download) as PC eqn:HPC;
  unfold run, bind, ret, raise, emit, lift, info_price, parse_date,
    yf_Ticker, try_except, print_reraise, pass_attribute in H.

(** A successful [profit_viz] charts the join of the two series
    [percent_change] computes. *)
Lemma profit_viz_success st s e bt tr c :
  run (pv st s e bt) = (tr, inr c) ->
  exists sp bp,
    snd (run (pc st s e)) = inr sp /\ snd (run (pc bt s e)) = inr bp /\
    chart_data c = profit_table sp bp.
Proof.
  intros H. pv_unfold H.
  destruct st as [tk| |]; cbn in H; try discriminate.
  destruct bt as [bk| |]; cbn in H; try discriminate.
  destruct (ticker_info tk) as [[]|[p|]]; cbn in H; try discriminate.
  destruct (ticker_info bk) as [[]|[q|]]; cbn in H; try discriminate.
  destruct (strptime s) as [ds|]; cbn in H; try discriminate.
  destruct (strptime e) as [de|]; cbn in H; try discriminate.
  destruct (date_ltb de ds); cbn in H; try discriminate.
  match type of H with context [PC (PyStr tk) s e ?tr1] =>
    destruct (PC (PyStr tk) s e tr1) as [tr2 [err|sp]] eqn:E1 end;
    cbn in H; [destruct err; discriminate|].
  match type of H with context [PC (PyStr bk) s e ?tr1] =>
    destruct (PC (PyStr bk) s e tr1) as [tr3 [err|bp]] eqn:E2 end;
    cbn in H; [destruct err; discriminate|].
  injection H as _ <-. subst PC.
  exists sp, bp. repeat split.
  - unfold run. erewrite percent_change_outcome. rewrite E1. reflexivity.
  - unfold run. erewrite percent_change_outcome. rewrite E2. reflexivity.
Qed.

(** ** C3: the comparison table keeps the dates of both series *)

(** C3: when [profit_viz] returns a chart, its table holds exactly the dates
    present both in the stock's and in the benchmark's [percent_change]
    series; a date missing from either is dropped. *)
Theorem profit_viz_inner_join st s e bt tr c :
  run (pv st s e bt) = (tr, inr c) ->
  exists sp bp,
    snd (run (pc st s e)) = inr sp /\ snd (run (pc bt s e)) = inr bp /\
    forall d, In d (map fst (rows (chart_data c))) <->
              In d (map fst (rows sp)) /\ In d (map fst (rows bp)).
Proof.
  intros H. destruct (profit_viz_success _ _ _ _ _ _ H) as (sp & bp & H1 & H2 & H3).
  exists sp, bp. split; [exact H1|split; [exact H2|]].
  intros d. rewrite H3. apply profit_table_dates.
Qed.

(** ** C4: the comparison table is an inner join with renamed columns *)

Lemma percent_change_cols t s e out :
  snd (run (pc t s e)) = inr out -> cols out = [price_col].
Proof.
  destruct (run (pc t s e)) as [tr r] eqn:Hrun. cbn. intros ->.
  now destruct (percent_change_success _ _ _ _ _ Hrun) as (_ & _ & _ & _ & _ & _ & _ & ? & _).
Qed.

(** C4 (amended): the table of a chart [profit_viz] returns is the inner
    join on Date of the two [percent_change] series: its columns are
    ["Profit Percent Stock"] and ["Profit Percent Benchmark"], and a date is
    one of its rows iff it is in both series. *)
Theorem profit_viz_table_shape st s e bt tr c :
  run (pv st s e bt) = (tr, inr c) ->
  cols (chart_data c) = ["Profit Percent Stock"; "Profit Percent Benchmark"] /\
  exists sp bp,
    snd (run (pc st s e)) = inr sp /\ snd (run (pc bt s e)) = inr bp /\
    forall d, In d (map fst (rows (chart_data c))) <->
              In d (map fst (rows sp)) /\ In d (map fst (rows bp)).
Proof.
  intros H. destruct (profit_viz_success _ _ _ _ _ _ H) as (sp & bp & H1 & H2 & H3).
  rewrite H3. split.
  - apply profit_table_cols; eapply percent_change_cols; eassumption.
  - exists sp, bp. split; [exact H1|split; [exact H2|]].
    intros d. apply profit_table_dates.
Qed.

(** ** C8: a ticker that is not a string *)

(** C8 (the code's behaviour): a stock or benchmark ticker that is not a
    string makes [yf.Ticker] raise [AttributeError] at line 117 or 118,
    before the type checks of lines 126 and 135 are reached. *)
Theorem profit_viz_non_string_ticker st s e bt :
  is_str st = false \/ is_str bt = false ->
  snd (run (pv st s e bt)) = inl AttributeError.
Proof.
  unfold run, profit_viz, bind, yf_Ticker, raise.
  intros [H|H]; destruct st; cbn in H; try discriminate; try reflexivity;
    destruct bt; cbn in H; try discriminate; reflexivity.
Qed.

(** ** C6: the checks come before the downloads *)

Lemma profit_viz_trace st s e bt tr err :
  run (pv st s e bt) = (tr, inl err) -> is_validation_error err = true ->
  forallb no_download tr = true.
Proof.
  intros H Hv. pv_unfold H.
  destruct st as [tk| |]; cbn in H;
    [|injection H as _ <-; discriminate Hv..].
  destruct bt as [bk| |]; cbn in H;
    [|injection H as _ <-; discriminate Hv..].
  destruct (ticker_info tk) as [[]|[p|]] eqn:Ei; cbn in H;
    try (injection H as <- <-; reflexivity);
    try (injection H as _ <-; discriminate Hv).
  destruct (ticker_info bk) as [[]|[q|]] eqn:Ej; cbn in H;
    try (injection H as <- <-; reflexivity);
    try (injection H as _ <-; discriminate Hv).
  destruct (strptime s) as [ds|] eqn:Es; cbn in H;
    try (injection H as <- <-; reflexivity).
  destruct (strptime e) as [de|] eqn:Ee; cbn in H;
    try (injection H as <- <-; reflexivity).
  destruct (date_ltb de ds) eqn:Elt; cbn in H;
    try (injection H as <- <-; reflexivity).
  match type of H with context [PC (PyStr tk) s e ?tr1] =>
    destruct (PC (PyStr tk) s e tr1) as [tr2 [err1|sp]] eqn:E1 end;
    cbn in H.
  - subst PC.
    pose proof (percent_change_checked _ _ _ _ _ _ _ _ _ Ei Es Ee Elt E1).
    destruct err1; cbn in H; injection H as _ <-; try discriminate Hv;
      cbn in *; discriminate.
  - match type of H with context [PC (PyStr bk) s e ?tr1] =>
      destruct (PC (PyStr bk) s e tr1) as [tr3 [err2|bp]] eqn:E2 end;
      cbn in H; [|discriminate].
    subst PC.
    pose proof (percent_change_checked _ _ _ _ _ _ _ _ _ Ej Es Ee Elt E2).
    destruct err2; cbn in H; injection H as _ <-; try discriminate Hv;
      cbn in *; discriminate.
Qed.

Lemma volume_change_trace t s e tr err :
  run (vc t s e) = (tr, inl err) -> is_validation_error err = true ->
  forallb no_download tr = true.
Proof.
  intros H Hv. unfold run in H. vc_unfold H.
  destruct t as [tk| |]; cbn in H;
    [|injection H as _ <-; discriminate Hv..].
  destruct (ticker_info tk) as [[]|[p|]]; cbn in H;
    try (injection H as <- <-; reflexivity);
    try (injection H as _ <-; discriminate Hv).
  destruct (strptime s) as [ds|]; cbn in H;
    try (injection H as <- <-; reflexivity).
  destruct (strptime e) as [de|]; cbn in H;
    try (injection H as <- <-; reflexivity).
  destruct (get_volume tk s e) as [[]|df]; cbn in H;
    try (injection H as _ <-; discriminate Hv).
  rewrite check_indicators_labels in H. discriminate.
Qed.

(** C6 (amended): in [percent_change], [profit_viz] and [volume_change], a
    check's exception (invalid ticker, date format, date range, argument
    type) is raised before any price or volume history is downloaded: the
    only provider requests made before it are the ticker lookups
    ([yf.Ticker(t).info]), which the ticker check itself performs. *)
Theorem checks_before_download t s e b :
  (forall tr err, run (pc t s e) = (tr, inl err) ->
     is_validation_error err = true -> forallb no_download tr = true) /\
  (forall tr err, run (pv t s e b) = (tr, inl err) ->
     is_validation_error err = true -> forallb no_download tr = true) /\
  (forall tr err, run (vc t s e) = (tr, inl err) ->
     is_validation_error err = true -> forallb no_download tr = true).
Proof.
  split; [|split].
  - intros tr err H Hv. unfold run in H.
    destruct (percent_change_trace _ _ _ _ _ _ H) as [ext [-> Hext]].
    exact (Hext err eq_refl Hv).
  - apply profit_viz_trace.
  - apply volume_change_trace.
Qed.

End Proofs.

(** * Further properties of the module *)

Section Extras.

Variable strptime : string -> option date.
Variable ticker_info : string -> perr + option num.
Variable yf_download : string -> string -> string -> perr + raw_frame.
Variable get_volume : string -> string -> string -> perr + list (date * Z).

Abbreviation pc := (percent_change strptime ticker_info yf_download).
Abbreviation pv := (profit_viz strptime ticker_info yf_download).
Abbreviation vc := (volume_change strptime ticker_info get_volume).
Abbreviation vv := (volume_viz strptime ticker_info get_volume).

(** ** [percent_change]: shape of the result *)

Lemma rebased_row_fst data j :
  option_map fst (rebased_row data j) = option_map fst (nth_error data j).
Proof.
  unfold rebased_row.
  destruct (nth_error data j) as [[d r]|]; [|reflexivity].
  destruct (nth_error data 0) as [[d0 r0]|]; reflexivity.
Qed.

(** [percent_change] keeps the downloaded frame's index: the same trading
    dates, in the same order, one row each. *)
Theorem percent_change_keeps_dates tk s e tr out raw :
  run (pc (PyStr tk) s e) = (tr, inr out) ->
  yf_download tk s e = inr raw ->
  map fst (rows out) = map fst raw.
Proof.
  intros Hrun Hdl.
  destruct (percent_change_success _ _ _ _ _ _ _ _ Hrun)
    as (tk' & raw' & d0 & r0 & Ht & Hdl' & H0 & _ & Hrows).
  injection Ht as <-. rewrite Hdl in Hdl'. injection Hdl' as <-.
  rewrite Hrows. apply nth_error_ext. intros j.
  rewrite !nth_error_map, nth_error_replace_nth, rebase_loop_length.
  destruct j as [|j]; cbn [Nat.eqb].
  - rewrite keep_close_nth in H0.
    destruct raw as [|[d bs] raw]; cbn in H0 |- *; [discriminate|].
    injection H0 as <- _. reflexivity.
  - rewrite rebase_loop_nth. cbn [Nat.leb]. rewrite rebased_row_fst.
    rewrite keep_close_nth. destruct (nth_error raw (S j)) as [[d bs]|]; reflexivity.
Qed.

Lemma rebase_length r r0 :
  List.length (rebase r r0) = Nat.min (List.length r) (List.length r0).
Proof. unfold rebase. now rewrite length_map, length_combine. Qed.

(** When every downloaded row has one bar per ticker ([n] of them), every
    row of [percent_change]'s result has [n] values. *)
Theorem percent_change_row_width tk s e tr out raw n :
  run (pc (PyStr tk) s e) = (tr, inr out) ->
  yf_download tk s e = inr raw ->
  (forall j d bs, nth_error raw j = Some (d, bs) -> List.length bs = n) ->
  forall j d r, nth_error (rows out) j = Some (d, r) -> List.length r = n.
Proof.
  intros Hrun Hdl Hw j d r Hj.
  destruct (percent_change_success _ _ _ _ _ _ _ _ Hrun)
    as (tk' & raw' & d0 & r0 & Ht & Hdl' & H0 & _ & Hrows).
  injection Ht as <-. rewrite Hdl in Hdl'. injection Hdl' as <-.
  rewrite keep_close_nth in H0.
  destruct (nth_error raw 0) as [[d0' bs0]|] eqn:E0; cbn in H0; [|discriminate].
  injection H0 as <- <-.
  assert (W0 := Hw 0 d0' bs0 E0).
  rewrite Hrows, nth_error_replace_nth, rebase_loop_length in Hj.
  destruct j as [|j]; cbn [Nat.eqb] in Hj.
  - destruct (Nat.ltb 0 (List.length (keep_close raw))); [|discriminate].
    injection Hj as <- <-. rewrite rebase_length, !length_map, W0. lia.
  - rewrite rebase_loop_nth in Hj. cbn [Nat.leb] in Hj. unfold rebased_row in Hj.
    rewrite !keep_close_nth, E0 in Hj.
    destruct (nth_error raw (S j)) as [[dj bsj]|] eqn:Ej; simpl in Hj;
      [|discriminate].
    injection Hj as <- <-. rewrite rebase_length, !length_map, W0, (Hw _ _ _ Ej). lia.
Qed.

(** One cell of line 81 when both closes are finite and [Close[0] > 0]. *)
Lemma rebase_cell_sign q q0 :
  (0 < q0)%Q ->
  exists z, fmul (fdiv (fsub (Fin q) (Fin q0)) (Fin q0)) hundred = Fin z /\
    ((0 < z)%Q <-> (q0 < q)%Q) /\ (z == 0 <-> q == q0)%Q /\
    ((z < 0)%Q <-> (q < q0)%Q).
Proof.
  intros Hq0. cbn.
  assert (Hne : Qeq_bool q0 0 = false).
  { destruct (Qeq_bool q0 0) eqn:E; [|reflexivity].
    apply Qeq_bool_iff in E. rewrite E in Hq0. discriminate. }
  rewrite Hne. eexists; split; [reflexivity|].
  set (z := ((q - q0) / q0 * 100)%Q).
  assert (Hz : (z * q0 == (q - q0) * 100)%Q).
  { unfold z. field. intros E. rewrite E in Hq0. discriminate. }
  clearbody z. repeat split; intros H; nra.
Qed.

Lemma nth_error_combine_some {A B} (l : list A) (l' : list B) k a b :
  nth_error l k = Some a -> nth_error l' k = Some b ->
  nth_error (combine l l') k = Some (a, b).
Proof.
  revert l' k; induction l as [|x l IH]; intros [|y l'] [|k] H H';
    cbn in *; try discriminate.
  - now injection H as ->; injection H' as ->.
  - now apply IH.
Qed.

Lemma percent_change_later_row tk s e tr out raw i d bs d0 bs0 :
  run (pc (PyStr tk) s e) = (tr, inr out) ->
  yf_download tk s e = inr raw ->
  nth_error raw (S i) = Some (d, bs) -> nth_error raw 0 = Some (d0, bs0) ->
  nth_error (rows out) (S i) =
    Some (d, rebase (map bar_close bs) (map bar_close bs0)).
Proof.
  intros Hrun Hdl Hri Hr0.
  destruct (percent_change_success _ _ _ _ _ _ _ _ Hrun)
    as (tk' & raw' & d0' & r0' & Ht & Hdl' & _ & _ & Hrows).
  injection Ht as <-. rewrite Hdl in Hdl'. injection Hdl' as <-.
  rewrite Hrows, nth_error_replace_nth. cbn [Nat.eqb].
  rewrite rebase_loop_nth. cbn [Nat.leb].
  unfold rebased_row. rewrite !keep_close_nth, Hri, Hr0. reflexivity.
Qed.

(** When a ticker's first close is a positive number, its percent change on
    a later day is a number whose sign is that of the price move: positive
    when the close rose above the first one, zero when equal, negative when
    it fell below. *)
Theorem percent_change_sign tk s e tr out raw i d bs d0 bs0 k q q0 :
  run (pc (PyStr tk) s e) = (tr, inr out) ->
  yf_download tk s e = inr raw ->
  nth_error raw (S i) = Some (d, bs) -> nth_error raw 0 = Some (d0, bs0) ->
  nth_error (map bar_close bs) k = Some (Fin q) ->
  nth_error (map bar_close bs0) k = Some (Fin q0) ->
  (0 < q0)%Q ->
  exists r z, nth_error (rows out) (S i) = Some (d, r) /\
    nth_error r k = Some (Fin z) /\
    ((0 < z)%Q <-> (q0 < q)%Q) /\ (z == 0 <-> q == q0)%Q /\
    ((z < 0)%Q <-> (q < q0)%Q).
Proof.
  intros Hrun Hdl Hri Hr0 Hk Hk0 Hq0.
  destruct (rebase_cell_sign q q0 Hq0) as (z & Hz & H1 & H2 & H3).
  exists (rebase (map bar_close bs) (map bar_close bs0)), z.
  split; [eapply percent_change_later_row; eassumption|].
  split; [|auto].
  unfold rebase. rewrite nth_error_map.
  rewrite (nth_error_combine_some _ _ _ _ _ Hk Hk0). cbn [option_map]. now rewrite Hz.
Qed.

(** ** Order of the checks *)

(** The ticker is checked first: when the provider has no market price for
    it, [percent_change] and [volume_change] raise [NameError] right after
    that lookup, whatever the dates. *)
Theorem ticker_checked_first tk s e :
  ticker_info tk = inr None ->
  run (pc (PyStr tk) s e) = ([Lookup (PyStr tk)], inl (NameError msg_ticker)) /\
  run (vc (PyStr tk) s e) = ([Lookup (PyStr tk)], inl (NameError msg_ticker)).
Proof.
  intros Hi. unfold run, percent_change, volume_change, bind, ret, raise, emit,
    lift, info_price, yf_Ticker.
  cbn. rewrite Hi. split; reflexivity.
Qed.


(** ** The check block and the handlers of [profit_viz] *)

Ltac pv_unfold H :=
  unfold profit_viz in H;
  remember (percent_change strptime ticker_info yf_download) as PC eqn:HPC;
  unfold run, bind, ret, raise, emit, lift, info_price, parse_date,
    yf_Ticker, try_except, print_reraise, pass_attribute in H.




(** When the checks pass and the stock's download raises [AttributeError],
    the [except AttributeError: pass] of line 165 swallows it, and reading
    the unbound [profit_df] raises [UnboundLocalError]; the benchmark is
    never downloaded. *)
Theorem profit_viz_download_attribute_error tk bk s e p q ds de :
  ticker_info tk = inr (Some p) -> ticker_info bk = inr (Some q) ->
  strptime s = Some ds -> strptime e = Some de -> date_ltb de ds = false ->
  yf_download tk s e = inl PAttributeError ->
  run (pv (PyStr tk) s e (PyStr bk)) =
    ([Lookup (PyStr tk); Lookup (PyStr bk); Lookup (PyStr tk);
      Download (PyStr tk) s e], inl UnboundLocalError).
Proof.
  intros Ei Ej Es Ee Elt Ed.
  unfold run, profit_viz, percent_change, bind, ret, raise, emit, lift,
    info_price, parse_date, yf_Ticker, try_except, print_reraise,
    pass_attribute, iloc_row.
  cbn. rewrite Ei, Ej. cbn. rewrite Es, Ee. cbn. rewrite Elt. cbn.
  rewrite Ed. reflexivity.
Qed.

(** ** The rows of the comparison table *)

Lemma merge_rows_in l r d v :
  In (d, v) (merge_rows l r) <->
  exists xs ys, In (d, xs) l /\ In (d, ys) r /\ v = app xs ys.
Proof.
  unfold merge_rows. rewrite in_flat_map. split.
  - intros [[dx xs] [Hl Hin]]. apply in_map_iff in Hin as [[d' ys] [Hrow Hf]].
    apply filter_In in Hf as [Hr Heq]. apply date_eqb_eq in Heq.
    injection Hrow as <- <-. subst d'. eauto.
  - intros (xs & ys & Hl & Hr & ->). exists (d, xs). split; [exact Hl|].
    apply in_map_iff. exists (d, ys). split; [reflexivity|].
    apply filter_In. split; [exact Hr|]. now apply date_eqb_eq.
Qed.

(** A row of the chart's table pairs, on one date, a row of the stock's
    series with a row of the benchmark's series on the same date: its
    values are the stock's followed by the benchmark's. *)
Theorem profit_viz_row_values st s e bt tr c :
  run (pv st s e bt) = (tr, inr c) ->
  exists sp bp,
    snd (run (pc st s e)) = inr sp /\ snd (run (pc bt s e)) = inr bp /\
    forall d v, In (d, v) (rows (chart_data c)) <->
      exists xs ys, In (d, xs) (rows sp) /\ In (d, ys) (rows bp) /\
                    v = app xs ys.
Proof.
  intros H. destruct (profit_viz_success strptime ticker_info yf_download _ _ _ _ _ _ H) as (sp & bp & H1 & H2 & H3).
  exists sp, bp. split; [exact H1|split; [exact H2|]].
  intros d v. rewrite H3. apply merge_rows_in.
Qed.

Lemma filter_date_absent d (r : list (date * list num)) :
  ~ In d (map fst r) -> filter (fun '(d', _) => date_eqb d d') r = [].
Proof.
  induction r as [|[d' ys] r IH]; intros Hn; [reflexivity|].
  cbn in Hn |- *. destruct (date_eqb d d') eqn:E.
  - apply date_eqb_eq in E. subst. exfalso; auto.
  - apply IH. auto.
Qed.

Lemma filter_date_unique d (r : list (date * list num)) :
  NoDup (map fst r) ->
  map (fun _ => d) (filter (fun '(d', _) => date_eqb d d') r) =
  if existsb (date_eqb d) (map fst r) then [d] else [].
Proof.
  induction r as [|[d' ys] r IH]; intros Hnd; [reflexivity|].
  cbn in Hnd |- *. inversion Hnd as [|? ? Hn Hnd']; subst.
  destruct (date_eqb d d') eqn:E; cbn.
  - apply date_eqb_eq in E. subst. now rewrite filter_date_absent.
  - now apply IH.
Qed.

Lemma merge_rows_fst l r :
  NoDup (map fst r) ->
  map fst (merge_rows l r) =
  filter (fun d => existsb (date_eqb d) (map fst r)) (map fst l).
Proof.
  intros Hnd. unfold merge_rows.
  induction l as [|[d xs] l IH]; [reflexivity|].
  cbn [flat_map map filter fst]. rewrite map_app, IH, map_map.
  replace (map (fun x => fst (let '(_, ys) := x in (d, app xs ys)))
               (filter (fun '(d', _) => date_eqb d d') r))
    with (map (fun _ => d) (filter (fun '(d', _) => date_eqb d d') r))
    by (apply map_ext; intros [? ?]; reflexivity).
  rewrite filter_date_unique by exact Hnd.
  destruct (existsb (date_eqb d) (map fst r)); reflexivity.
Qed.

(** When the benchmark's series has one row per date, the chart's table
    lists the stock's dates in the stock's order, keeping those the
    benchmark also has, each once. *)
Theorem profit_viz_row_order st s e bt tr c :
  run (pv st s e bt) = (tr, inr c) ->
  exists sp bp,
    snd (run (pc st s e)) = inr sp /\ snd (run (pc bt s e)) = inr bp /\
    (NoDup (map fst (rows bp)) ->
     map fst (rows (chart_data c)) =
     filter (fun d => existsb (date_eqb d) (map fst (rows bp)))
            (map fst (rows sp))).
Proof.
  intros H. destruct (profit_viz_success strptime ticker_info yf_download _ _ _ _ _ _ H) as (sp & bp & H1 & H2 & H3).
  exists sp, bp. split; [exact H1|split; [exact H2|]].
  intros Hnd. rewrite H3. now apply merge_rows_fst.
Qed.

(** ** The requests each function makes *)

Ltac pc_unfold H :=
  unfold percent_change, bind, ret, raise, emit, lift, info_price,
    parse_date, yf_Ticker, iloc_row in H.

Ltac vc_unfold H :=
  unfold volume_change, bind, ret, raise, emit, lift, info_price,
    parse_date, yf_Ticker in H.

Lemma percent_change_success_trace t s e tr0 tr out :
  pc t s e tr0 = (tr, inr out) ->
  tr = app tr0 [Lookup t; Download t s e].
Proof.
  intros H. pc_unfold H.
  destruct t as [tk| |]; cbn in H; try discriminate.
  destruct (ticker_info tk) as [pe|[p|]]; cbn in H; try discriminate.
  destruct (strptime s) as [ds|]; cbn in H; try discriminate.
  destruct (strptime e) as [de|]; cbn in H; try discriminate.
  destruct (date_ltb de ds); cbn in H; try discriminate.
  destruct (yf_download tk s e) as [pe|raw]; cbn in H; try discriminate.
  destruct (rebase_loop (keep_close raw)) as [|[d0 r0] rest]; cbn in H;
    try discriminate.
  injection H as <- _. now rewrite <- app_assoc.
Qed.

Ltac trace_cases :=
  first [left; reflexivity | right; left; reflexivity | right; right; reflexivity].

(** [percent_change] and [volume_change] make at most two requests: the
    lookup of the ticker, then one download of its history for the dates
    given; a run that stops earlier has made a prefix of these. *)
Theorem requests_made t s e :
  (forall tr r, run (pc t s e) = (tr, r) ->
     tr = [] \/ tr = [Lookup t] \/ tr = [Lookup t; Download t s e]) /\
  (forall tr r, run (vc t s e) = (tr, r) ->
     tr = [] \/ tr = [Lookup t] \/ tr = [Lookup t; DownloadVolume t s e]).
Proof.
  split; intros tr r H; unfold run in H; [pc_unfold H|vc_unfold H];
    (destruct t as [tk| |]; cbn in H; [|injection H as <- _; trace_cases..]);
    (destruct (ticker_info tk) as [pe|[p|]]; cbn in H;
       [injection H as <- _; trace_cases| |injection H as <- _; trace_cases]);
    (destruct (strptime s) as [ds|]; cbn in H; [|injection H as <- _; trace_cases]);
    (destruct (strptime e) as [de|]; cbn in H; [|injection H as <- _; trace_cases]).
  - destruct (date_ltb de ds); cbn in H; [injection H as <- _; trace_cases|].
    destruct (yf_download tk s e) as [pe|raw]; cbn in H;
      [injection H as <- _; trace_cases|].
    destruct (rebase_loop (keep_close raw)) as [|[d0 r0] rest]; cbn in H;
      injection H as <- _; trace_cases.
  - destruct (get_volume tk s e) as [pe|df]; cbn in H;
      [injection H as <- _; trace_cases|].
    rewrite check_indicators_labels in H. injection H as <- _; trace_cases.
Qed.

(** A chart comes after six requests: the two lookups of the check block,
    then, inside each [percent_change], the ticker's lookup again and its
    download; the stock's series is downloaded before the benchmark's. *)
Theorem profit_viz_requests st s e bt tr c :
  run (pv st s e bt) = (tr, inr c) ->
  tr = [Lookup st; Lookup bt; Lookup st; Download st s e;
        Lookup bt; Download bt s e].
Proof.
  intros H. pv_unfold H.
  destruct st as [tk| |]; cbn in H; try discriminate.
  destruct bt as [bk| |]; cbn in H; try discriminate.
  destruct (ticker_info tk) as [[]|[p|]]; cbn in H; try discriminate.
  destruct (ticker_info bk) as [[]|[q|]]; cbn in H; try discriminate.
  destruct (strptime s) as [ds|]; cbn in H; try discriminate.
  destruct (strptime e) as [de|]; cbn in H; try discriminate.
  destruct (date_ltb de ds); cbn in H; try discriminate.
  match type of H with context [PC (PyStr tk) s e ?tr1] =>
    destruct (PC (PyStr tk) s e tr1) as [tr2 [err|sp]] eqn:E1 end;
    cbn in H; [destruct err; discriminate|].
  match type of H with context [PC (PyStr bk) s e ?tr1] =>
    destruct (PC (PyStr bk) s e tr1) as [tr3 [err|bp]] eqn:E2 end;
    cbn in H; [destruct err; discriminate|].
  injection H as <- _. subst PC.
  apply percent_change_success_trace in E1, E2. subst. reflexivity.
Qed.

(** ** [volume_change] and [volume_viz] *)

(** [volume_change] checks that both dates parse but never compares them:
    with a ticker that has a price, it downloads and labels the volumes
    whatever the order of the dates. *)
Theorem volume_change_without_range_check tk s e p ds de df :
  ticker_info tk = inr (Some p) -> strptime s = Some ds ->
  strptime e = Some de -> get_volume tk s e = inr df ->
  run (vc (PyStr tk) s e) =
    ([Lookup (PyStr tk); DownloadVolume (PyStr tk) s e],
     inr (map (fun '((d, v), l) => (d, v, l))
              (combine df (volume_labels (map snd df))))).
Proof.
  intros Ei Es Ee Eg.
  unfold run, volume_change, bind, ret, raise, emit, lift, info_price,
    parse_date, yf_Ticker.
  cbn. rewrite Ei. cbn. rewrite Es, Ee. cbn. rewrite Eg. cbn.
  rewrite check_indicators_labels. reflexivity.
Qed.

Lemma combine_labels_rows (df : list (date * Z)) :
  map (fun '(d, v, _) => (d, v))
      (map (fun '((d, v), l) => (d, v, l)) (combine df (volume_labels (map snd df))))
  = df.
Proof.
  assert (Hlen : List.length df = List.length (volume_labels (map snd df)))
    by now rewrite volume_labels_length, length_map.
  revert Hlen. generalize (volume_labels (map snd df)) as ls.
  induction df as [|[d v] df IH]; intros [|l ls] Hl; cbn in *;
    try discriminate; auto.
  injection Hl as Hl. now rewrite IH.
Qed.

(** The frame [volume_change] returns is the downloaded one, row for row
    (dates, volumes and their order), with a label added to each row; in
    particular an empty download gives an empty frame. *)
Theorem volume_change_keeps_rows t s e tr out :
  run (vc t s e) = (tr, inr out) ->
  exists tk, t = PyStr tk /\
    get_volume tk s e = inr (map (fun '(d, v, _) => (d, v)) out).
Proof.
  intros H. unfold run in H. vc_unfold H.
  destruct t as [tk| |]; cbn in H; try discriminate.
  destruct (ticker_info tk) as [pe|[p|]]; cbn in H; try discriminate.
  destruct (strptime s) as [ds|]; cbn in H; try discriminate.
  destruct (strptime e) as [de|]; cbn in H; try discriminate.
  destruct (get_volume tk s e) as [pe|df] eqn:Eg; cbn in H; try discriminate.
  rewrite check_indicators_labels in H. injection H as _ <-.
  exists tk. split; [reflexivity|]. now rewrite Eg, combine_labels_rows.
Qed.

Lemma nth_error_combine_iff {A B} (l : list A) (l' : list B) j a b :
  nth_error (combine l l') j = Some (a, b) <->
  nth_error l j = Some a /\ nth_error l' j = Some b.
Proof.
  revert l' j; induction l as [|x l IH]; intros l' j.
  - cbn. destruct j; split; [discriminate|intros [H _]; discriminate
                            |discriminate|intros [H _]; discriminate].
  - destruct l' as [|y l'].
    + cbn. destruct j; split; try discriminate; intros [_ H]; discriminate.
    + destruct j as [|j]; cbn; [|apply IH].
      split; [intros H; injection H as -> ->; auto|].
      intros [H1 H2]; injection H1 as ->; injection H2 as ->; reflexivity.
Qed.

Lemma labelled_row (df : list (date * Z)) j d v (l : string) :
  nth_error (map (fun '((d, v), l) => (d, v, l))
                 (combine df (volume_labels (map snd df)))) j = Some (d, v, l) ->
  nth_error df j = Some (d, v) /\ (j = 0 -> l = "nan") /\
  forall i, j = S i -> exists d' v', nth_error df i = Some (d', v') /\
                                     l = volume_label (Some (v - v')%Z).
Proof.
  rewrite nth_error_map.
  destruct (nth_error (combine df (volume_labels (map snd df))) j)
    as [[[d1 v1] l1]|] eqn:E; cbn; [|discriminate].
  intros Hrow. injection Hrow as -> -> ->.
  apply nth_error_combine_iff in E as [Hd Hl].
  split; [exact Hd|split].
  - intros ->. now apply volume_labels_first in Hl.
  - intros i ->.
    assert (Hi : S i < List.length df)
      by (apply nth_error_Some; congruence).
    destruct (nth_error df i) as [[d' v']|] eqn:Ei;
      [|apply nth_error_None in Ei; lia].
    exists d', v'. split; [reflexivity|].
    assert (Hv : nth_error (map snd df) (S i) = Some v)
      by (now rewrite nth_error_map, Hd).
    assert (Hv' : nth_error (map snd df) i = Some v')
      by (now rewrite nth_error_map, Ei).
    rewrite (volume_labels_next _ _ _ _ Hv Hv') in Hl.
    injection Hl as <-. reflexivity.
Qed.

Lemma labelled_row_next (df : list (date * Z)) i d v d' v' :
  nth_error df (S i) = Some (d, v) -> nth_error df i = Some (d', v') ->
  nth_error (map (fun '((d, v), l) => (d, v, l))
                 (combine df (volume_labels (map snd df)))) (S i)
  = Some (d, v, volume_label (Some (v - v')%Z)).
Proof.
  intros Hd Hd'. rewrite nth_error_map.
  assert (Hv : nth_error (map snd df) (S i) = Some v)
    by (now rewrite nth_error_map, Hd).
  assert (Hv' : nth_error (map snd df) i = Some v')
    by (now rewrite nth_error_map, Hd').
  rewrite (proj2 (nth_error_combine_iff _ _ _ _ _)
             (conj Hd (volume_labels_next _ _ _ _ Hv Hv'))).
  reflexivity.
Qed.

Lemma bars_of_points vdf color name :
  combine (bt_x (bars_of vdf color name)) (bt_y (bars_of vdf color name)) =
  map (fun '(d, v, _) => (d, v)) vdf.
Proof.
  unfold bars_of. cbn [bt_x bt_y].
  induction vdf as [|[[d v] l] vdf IH]; cbn; [reflexivity|]. now rewrite IH.
Qed.

Lemma bars_of_labelled label vdf color name d v :
  In (d, v) (combine (bt_x (bars_of (rows_labelled label vdf) color name))
                     (bt_y (bars_of (rows_labelled label vdf) color name))) <->
  exists j, nth_error vdf j = Some (d, v, label).
Proof.
  rewrite bars_of_points, in_map_iff. unfold rows_labelled. split.
  - intros [[[d1 v1] l1] [Heq Hin]]. injection Heq as -> ->.
    apply filter_In in Hin as [Hin Hl]. apply String.eqb_eq in Hl. subst l1.
    now apply In_nth_error.
  - intros [j Hj]. exists (d, v, label). split; [reflexivity|].
    apply filter_In. split; [eapply nth_error_In; eassumption|].
    apply String.eqb_refl.
Qed.

Lemma volume_label_bar (df : list (date * Z)) (label : string) d v :
  (label = "Increase" \/ label = "Decrease") ->
  (exists j, nth_error (map (fun '((d, v), l) => (d, v, l))
                 (combine df (volume_labels (map snd df)))) j = Some (d, v, label)) <->
  exists i d' v', nth_error df (S i) = Some (d, v) /\
                  nth_error df i = Some (d', v') /\
                  volume_label (Some (v - v')%Z) = label.
Proof.
  intros Hlab. split.
  - intros [j Hj]. destruct (labelled_row _ _ _ _ _ Hj) as (Hd & H0 & HS).
    destruct j as [|i].
    + specialize (H0 eq_refl). subst label.
      destruct Hlab as [H|H]; discriminate H.
    + destruct (HS i eq_refl) as (d' & v' & Hd' & Hl).
      exists i, d', v'. auto.
  - intros (i & d' & v' & Hd & Hd' & Hl). exists (S i).
    rewrite (labelled_row_next _ _ _ _ _ _ Hd Hd'). now rewrite Hl.
Qed.

(** The figure of [volume_viz] has a green and a red trace of bars based at
    0.  The green bars are exactly the rows of the volume frame whose volume
    is above the previous row's, the red bars exactly those below it: the
    first row and the rows with an unchanged volume are drawn in neither. *)
Theorem volume_viz_bars t s e tr bars :
  run (vv t s e) = (tr, inr bars) ->
  exists out g r, run (vc t s e) = (tr, inr out) /\ bars = [g; r] /\
    bt_color g = "green" /\ bt_color r = "red" /\
    bt_base g = 0%Z /\ bt_base r = 0%Z /\
    (forall d v, In (d, v) (combine (bt_x g) (bt_y g)) <->
       exists i d' v',
         nth_error (map (fun '(d, v, _) => (d, v)) out) (S i) = Some (d, v) /\
         nth_error (map (fun '(d, v, _) => (d, v)) out) i = Some (d', v') /\
         (v' < v)%Z) /\
    (forall d v, In (d, v) (combine (bt_x r) (bt_y r)) <->
       exists i d' v',
         nth_error (map (fun '(d, v, _) => (d, v)) out) (S i) = Some (d, v) /\
         nth_error (map (fun '(d, v, _) => (d, v)) out) i = Some (d', v') /\
         (v < v')%Z).
Proof.
  intros H. unfold run, volume_viz, bind, ret, try_except in H.
  destruct (vc t s e []) as [tr' [err|out]] eqn:E;
    [destruct err; cbn in H; discriminate|].
  injection H as <- <-.
  destruct (volume_change_success strptime ticker_info get_volume _ _ _ _ _ E)
    as [df Hout].
  do 3 eexists. split; [exact E|]. split; [reflexivity|].
  do 4 (split; [reflexivity|]).
  rewrite Hout, combine_labels_rows.
  split; intros d v; rewrite bars_of_labelled, volume_label_bar by auto;
    split; intros (i & d' & v' & Hd & Hd' & Hl); exists i, d', v';
    (split; [exact Hd|split; [exact Hd'|]]);
    destruct (volume_label_cases (v - v')%Z) as (A & B & _);
    [apply A in Hl| apply A| apply B in Hl| apply B]; lia.
Qed.

(** [volume_viz] raises what [volume_change] raises, after the same
    requests, except [AttributeError]: its [except AttributeError: pass]
    leaves [vdf] unbound and line 279 raises [UnboundLocalError]. *)
Theorem volume_viz_errors t s e tr err :
  run (vc t s e) = (tr, inl err) ->
  run (vv t s e) =
    (tr, inl (match err with AttributeError => UnboundLocalError | _ => err end)).
Proof.
  intros H. unfold run in H |- *. unfold volume_viz, bind, try_except.
  rewrite H. destruct err; reflexivity.
Qed.

End Extras.

(** * Concrete runs on the sample provider *)

Module Runs.
Import Sample.

Definition d0 := "2020-01-01".
Definition d1 := "2020-01-10".

(** Witness of C1: AAPL's second row is rebased on its first. *)
Lemma percent_change_rebases_rows_witness :
  exists tr out raw,
    run (Sample.percent_change (PyStr "AAPL") d0 d1) = (tr, inr out) /\
    Sample.yf_download "AAPL" d0 d1 = inr raw /\
    nth_error (rows out) 1 =
      Some (jan 6, map (fun '(c, c0) => fmul (fdiv (fsub c c0) c0) hundred)
                       (combine (map bar_close [close_bar (Fin 110)])
                                (map bar_close [close_bar (Fin 100)]))).
Proof.
  do 3 eexists. split; [vm_compute; reflexivity|]. split; [reflexivity|].
  eapply (percent_change_rebases_rows strptime_ymd ticker_info yf_download
            "AAPL" d0 d1); vm_compute; reflexivity.
Defined.

(** Witness of C5: AAPL's first row, whose close is 100. *)
Lemma percent_change_first_row_witness :
  exists tr out raw,
    run (Sample.percent_change (PyStr "AAPL") d0 d1) = (tr, inr out) /\
    Sample.yf_download "AAPL" d0 d1 = inr raw /\
    nth_error raw 0 = Some (jan 3, [close_bar (Fin 100)]) /\
    exists r0, nth_error (rows out) 0 = Some (jan 3, r0) /\
    forall k c, nth_error (map bar_close [close_bar (Fin 100)]) k = Some c ->
      (finite_nonzero c = true ->
       exists z, nth_error r0 k = Some (Fin z) /\ (z == 0)%Q) /\
      (finite_nonzero c = false -> nth_error r0 k = Some NaN).
Proof.
  do 3 eexists. split; [vm_compute; reflexivity|]. split; [reflexivity|].
  split; [reflexivity|].
  eapply (percent_change_first_row strptime_ymd ticker_info yf_download
            "AAPL" d0 d1); vm_compute; reflexivity.
Defined.

(** C5 fails as stated: NEWCO's first close is missing and ZERO's is 0;
    row 0 then holds NaN, not 0. *)
Lemma percent_change_first_row_nan :
  exists out out',
    snd (run (Sample.percent_change (PyStr "NEWCO") d0 d1)) = inr out /\
    nth_error (rows out) 0 = Some (jan 3, [NaN]) /\
    (forall z, nth_error (rows out) 0 <> Some (jan 3, [Fin z])) /\
    snd (run (Sample.percent_change (PyStr "ZERO") d0 d1)) = inr out' /\
    nth_error (rows out') 0 = Some (jan 3, [NaN]).
Proof.
  do 2 eexists. split; [reflexivity|]. split; [reflexivity|].
  split; [|split; reflexivity].
  intros z. cbn. discriminate.
Qed.

(** Witness of C10: DELISTED has a price but no rows in the range. *)
Lemma percent_change_empty_download_witness :
  Sample.yf_download "DELISTED" d0 d1 = inr [] /\
  snd (run (Sample.percent_change (PyStr "DELISTED") d0 d1)) = inl IndexError /\
  forall tr out,
    run (Sample.percent_change (PyStr "DELISTED") d0 d1) <> (tr, inr out).
Proof.
  split; [reflexivity|]. split; [reflexivity|].
  apply (percent_change_empty_download strptime_ymd ticker_info yf_download).
  reflexivity.
Defined.

(** Witness of C9: an end date before the start date, and equal dates. *)
Lemma percent_change_range_error_witness :
  (snd (run (Sample.percent_change (PyStr "AAPL") "2020-02-01" "2020-01-01"))
     = inl (ValueError msg_range) <->
   date_ltb (mkdate 2020 1 1) (mkdate 2020 2 1) = true) /\
  (mkdate 2020 1 1 = mkdate 2020 1 1 ->
   snd (run (Sample.percent_change (PyStr "AAPL") "2020-01-01" "2020-01-01"))
     <> inl (ValueError msg_range)) /\
  snd (run (Sample.percent_change (PyStr "AAPL") "2020-02-01" "2020-01-01"))
    = inl (ValueError msg_range).
Proof.
  split; [|split; [|reflexivity]].
  - apply (percent_change_range_error strptime_ymd ticker_info yf_download
             "AAPL" "2020-02-01" "2020-01-01" (Fin 150)); reflexivity.
  - apply (percent_change_range_error strptime_ymd ticker_info yf_download
             "AAPL" "2020-01-01" "2020-01-01" (Fin 150)); reflexivity.
Defined.

(** Witness of C2: AAPL's volumes 1000, 2000, 2000, 1500. *)
Lemma volume_change_labels_witness :
  exists tr out,
    run (Sample.volume_change (PyStr "AAPL") d0 d1) = (tr, inr out) /\
    map (fun '(_, _, l) => l) out = ["nan"; "Increase"; "nan"; "Decrease"] /\
    (forall l, nth_error (map (fun '(_, _, l) => l) out) 0 = Some l -> l = "nan") /\
    (forall i v v' l,
       nth_error (map (fun '(_, v, _) => v) out) (S i) = Some v ->
       nth_error (map (fun '(_, v, _) => v) out) i = Some v' ->
       nth_error (map (fun '(_, _, l) => l) out) (S i) = Some l ->
       (l = "Increase" <-> (v' < v)%Z) /\ (l = "Decrease" <-> (v < v')%Z) /\
       (l = "nan" <-> v = v')).
Proof.
  do 2 eexists. split; [vm_compute; reflexivity|]. split; [reflexivity|].
  eapply (volume_change_labels strptime_ymd ticker_info get_volume
            (PyStr "AAPL") d0 d1);
    vm_compute; reflexivity.
Defined.

(** Witness of C7. *)
Lemma volume_change_indicator_check_unreachable_witness :
  Forall (fun l => l = "Increase" \/ l = "Decrease" \/ l = "nan")
         (volume_labels [1000; 2000; 2000; 1500]%Z) /\
  snd (run (Sample.volume_change (PyStr "AAPL") d0 d1))
    <> inl (ValueError "Incorrect Volume Change indicator").
Proof.
  apply (volume_change_indicator_check_unreachable strptime_ymd ticker_info
           get_volume).
Defined.

(** Witness of C3: AAPL trades on Jan 3, 6, 7 and SPY on Jan 6, 7, 8; the
    table holds Jan 6 and 7. *)
Lemma profit_viz_inner_join_witness :
  exists tr c,
    run (Sample.profit_viz (PyStr "AAPL") d0 d1 (PyStr "SPY")) = (tr, inr c) /\
    map fst (rows (chart_data c)) = [jan 6; jan 7] /\
    exists sp bp,
      snd (run (Sample.percent_change (PyStr "AAPL") d0 d1)) = inr sp /\
      snd (run (Sample.percent_change (PyStr "SPY") d0 d1)) = inr bp /\
      forall d, In d (map fst (rows (chart_data c))) <->
                In d (map fst (rows sp)) /\ In d (map fst (rows bp)).
Proof.
  do 2 eexists. split; [vm_compute; reflexivity|]. split; [reflexivity|].
  eapply (profit_viz_inner_join strptime_ymd ticker_info yf_download
            (PyStr "AAPL") d0 d1 (PyStr "SPY"));
    vm_compute; reflexivity.
Defined.

(** Witness of C4 (amended). *)
Lemma profit_viz_table_shape_witness :
  exists tr c,
    run (Sample.profit_viz (PyStr "AAPL") d0 d1 (PyStr "SPY")) = (tr, inr c) /\
    cols (chart_data c) = ["Profit Percent Stock"; "Profit Percent Benchmark"] /\
    exists sp bp,
      snd (run (Sample.percent_change (PyStr "AAPL") d0 d1)) = inr sp /\
      snd (run (Sample.percent_change (PyStr "SPY") d0 d1)) = inr bp /\
      forall d, In d (map fst (rows (chart_data c))) <->
                In d (map fst (rows sp)) /\ In d (map fst (rows bp)).
Proof.
  do 2 eexists. split; [vm_compute; reflexivity|].
  eapply (profit_viz_table_shape strptime_ymd ticker_info yf_download
            (PyStr "AAPL") d0 d1 (PyStr "SPY"));
    vm_compute; reflexivity.
Defined.

(** C4 fails as stated: Jan 3 is in AAPL's series but not in the table. *)
Lemma profit_viz_drops_unmatched_date :
  exists c sp,
    snd (run (Sample.profit_viz (PyStr "AAPL") d0 d1 (PyStr "SPY"))) = inr c /\
    snd (run (Sample.percent_change (PyStr "AAPL") d0 d1)) = inr sp /\
    In (jan 3) (map fst (rows sp)) /\
    ~ In (jan 3) (map fst (rows (chart_data c))).
Proof.
  do 2 eexists. split; [vm_compute; reflexivity|].
  split; [vm_compute; reflexivity|]. split.
  - simpl. auto.
  - simpl. intros [H|[H|[]]]; discriminate.
Qed.

(** Witness of C8: [profit_viz(5, ..., 'SPY')]. *)
Lemma profit_viz_non_string_ticker_witness :
  (is_str (PyInt 5) = false \/ is_str (PyStr "SPY") = false) /\
  snd (run (Sample.profit_viz (PyInt 5) d0 d1 (PyStr "SPY"))) = inl AttributeError.
Proof.
  split; [left; reflexivity|].
  apply (profit_viz_non_string_ticker strptime_ymd ticker_info yf_download).
  left; reflexivity.
Defined.

(** C6 fails as stated: the date-format error of [percent_change] comes
    after the provider lookup of the ticker. *)
Lemma date_error_after_lookup :
  run (Sample.percent_change (PyStr "AAPL") "01-01-2020" d1)
    = ([Lookup (PyStr "AAPL")], inl (ValueError msg_start)).
Proof. reflexivity. Qed.

(** Witness of C6 (amended): the same run, and [profit_viz] printing the
    error before raising it. *)
Lemma checks_before_download_witness :
  run (Sample.percent_change (PyStr "AAPL") "01-01-2020" d1)
    = ([Lookup (PyStr "AAPL")], inl (ValueError msg_start)) /\
  forallb no_download [Lookup (PyStr "AAPL")] = true /\
  run (Sample.profit_viz (PyStr "AAPL") "01-01-2020" d1 (PyStr "SPY"))
    = ([Lookup (PyStr "AAPL"); Lookup (PyStr "SPY");
        Print (ValueError msg_start)], inl (ValueError msg_start)) /\
  forallb no_download [Lookup (PyStr "AAPL"); Lookup (PyStr "SPY");
                       Print (ValueError msg_start)] = true.
Proof.
  split; [reflexivity|]. split.
  { eapply (proj1 (checks_before_download strptime_ymd ticker_info yf_download
                     get_volume (PyStr "AAPL") "01-01-2020" d1 (PyStr "SPY")));
      reflexivity. }
  split; [reflexivity|].
  eapply (proj1 (proj2 (checks_before_download strptime_ymd ticker_info
                          yf_download get_volume (PyStr "AAPL") "01-01-2020" d1
                          (PyStr "SPY")))); reflexivity.
Defined.

End Runs.

(** * Concrete runs of the further properties *)

Module ExtraRuns.
Import Sample.

Definition d0 := "2020-01-01".
Definition d1 := "2020-01-10".

Lemma percent_change_keeps_dates_witness :
  exists tr out raw,
    run (Sample.percent_change (PyStr "AAPL") d0 d1) = (tr, inr out) /\
    Sample.yf_download "AAPL" d0 d1 = inr raw /\
    map fst (rows out) = map fst raw.
Proof.
  do 3 eexists. split; [vm_compute; reflexivity|]. split; [reflexivity|].
  eapply (percent_change_keeps_dates strptime_ymd ticker_info yf_download
            "AAPL" d0 d1); vm_compute; reflexivity.
Defined.

Lemma percent_change_row_width_witness :
  exists tr out,
    run (Sample.percent_change (PyStr "AAPL") d0 d1) = (tr, inr out) /\
    (forall j d bs, nth_error [(jan 3, [close_bar (Fin 100)]);
                               (jan 6, [close_bar (Fin 110)]);
                               (jan 7, [close_bar (Fin 95)])] j = Some (d, bs) ->
                    List.length bs = 1%nat) /\
    (forall j d r, nth_error (rows out) j = Some (d, r) -> List.length r = 1%nat).
Proof.
  assert (Hw : forall j d bs,
            nth_error [(jan 3, [close_bar (Fin 100)]);
                       (jan 6, [close_bar (Fin 110)]);
                       (jan 7, [close_bar (Fin 95)])] j = Some (d, bs) ->
            List.length bs = 1%nat).
  { intros [|[|[|j]]] d bs H; cbn in H; try (destruct j; discriminate);
      injection H as _ <-; reflexivity. }
  do 2 eexists. split; [vm_compute; reflexivity|]. split; [exact Hw|].
  eapply (percent_change_row_width strptime_ymd ticker_info yf_download
            "AAPL" d0 d1); [vm_compute; reflexivity|reflexivity|exact Hw].
Defined.

Lemma percent_change_sign_witness :
  exists tr out,
    run (Sample.percent_change (PyStr "AAPL") d0 d1) = (tr, inr out) /\
    (0 < 100)%Q /\
    exists r z, nth_error (rows out) 1 = Some (jan 6, r) /\
      nth_error r 0 = Some (Fin z) /\
      ((0 < z)%Q <-> (100 < 110)%Q) /\ (z == 0 <-> 110 == 100)%Q /\
      ((z < 0)%Q <-> (110 < 100)%Q).
Proof.
  do 2 eexists. split; [vm_compute; reflexivity|].
  split; [reflexivity|].
  eapply (percent_change_sign strptime_ymd ticker_info yf_download
            "AAPL" d0 d1 _ _ _ 0%nat (jan 6) [close_bar (Fin 110)]
            (jan 3) [close_bar (Fin 100)] 0%nat 110%Q 100%Q);
    vm_compute; reflexivity.
Defined.

Lemma ticker_checked_first_witness :
  Sample.ticker_info "XYZ" = inr None /\
  run (Sample.percent_change (PyStr "XYZ") "bad" "dates")
    = ([Lookup (PyStr "XYZ")], inl (NameError msg_ticker)) /\
  run (Sample.volume_change (PyStr "XYZ") "bad" "dates")
    = ([Lookup (PyStr "XYZ")], inl (NameError msg_ticker)).
Proof.
  split; [reflexivity|].
  apply (ticker_checked_first strptime_ymd ticker_info yf_download get_volume).
  reflexivity.
Defined.



Lemma profit_viz_download_attribute_error_witness :
  Faulty.yf_download "AAPL" d0 d1 = inl PAttributeError /\
  run (Faulty.profit_viz (PyStr "AAPL") d0 d1 (PyStr "SPY")) =
    ([Lookup (PyStr "AAPL"); Lookup (PyStr "SPY"); Lookup (PyStr "AAPL");
      Download (PyStr "AAPL") d0 d1], inl UnboundLocalError).
Proof.
  split; [reflexivity|].
  apply (profit_viz_download_attribute_error strptime_ymd ticker_info
           Faulty.yf_download "AAPL" "SPY" d0 d1 (Fin 150) (Fin 400)
           (mkdate 2020 1 1) (mkdate 2020 1 10)); reflexivity.
Defined.

Lemma profit_viz_row_values_witness :
  exists tr c,
    run (Sample.profit_viz (PyStr "AAPL") d0 d1 (PyStr "SPY")) = (tr, inr c) /\
    exists sp bp,
      snd (run (Sample.percent_change (PyStr "AAPL") d0 d1)) = inr sp /\
      snd (run (Sample.percent_change (PyStr "SPY") d0 d1)) = inr bp /\
      forall d v, In (d, v) (rows (chart_data c)) <->
        exists xs ys, In (d, xs) (rows sp) /\ In (d, ys) (rows bp) /\
                      v = app xs ys.
Proof.
  do 2 eexists. split; [vm_compute; reflexivity|].
  eapply (profit_viz_row_values strptime_ymd ticker_info yf_download
            (PyStr "AAPL") d0 d1 (PyStr "SPY")); vm_compute; reflexivity.
Defined.

Lemma profit_viz_row_order_witness :
  exists tr c,
    run (Sample.profit_viz (PyStr "AAPL") d0 d1 (PyStr "SPY")) = (tr, inr c) /\
    exists sp bp,
      snd (run (Sample.percent_change (PyStr "AAPL") d0 d1)) = inr sp /\
      snd (run (Sample.percent_change (PyStr "SPY") d0 d1)) = inr bp /\
      (NoDup (map fst (rows bp)) ->
       map fst (rows (chart_data c)) =
       filter (fun d => existsb (date_eqb d) (map fst (rows bp)))
              (map fst (rows sp))).
Proof.
  do 2 eexists. split; [vm_compute; reflexivity|].
  eapply (profit_viz_row_order strptime_ymd ticker_info yf_download
            (PyStr "AAPL") d0 d1 (PyStr "SPY")); vm_compute; reflexivity.
Defined.

Lemma requests_made_witness :
  exists tr r,
    run (Sample.percent_change (PyStr "AAPL") d0 d1) = (tr, r) /\
    (tr = [] \/ tr = [Lookup (PyStr "AAPL")] \/
     tr = [Lookup (PyStr "AAPL"); Download (PyStr "AAPL") d0 d1]).
Proof.
  do 2 eexists. split; [vm_compute; reflexivity|].
  eapply (proj1 (requests_made strptime_ymd ticker_info yf_download get_volume
                   (PyStr "AAPL") d0 d1)); vm_compute; reflexivity.
Defined.

Lemma profit_viz_requests_witness :
  exists tr c,
    run (Sample.profit_viz (PyStr "AAPL") d0 d1 (PyStr "SPY")) = (tr, inr c) /\
    tr = [Lookup (PyStr "AAPL"); Lookup (PyStr "SPY"); Lookup (PyStr "AAPL");
          Download (PyStr "AAPL") d0 d1; Lookup (PyStr "SPY");
          Download (PyStr "SPY") d0 d1].
Proof.
  do 2 eexists. split; [vm_compute; reflexivity|].
  eapply (profit_viz_requests strptime_ymd ticker_info yf_download
            (PyStr "AAPL") d0 d1 (PyStr "SPY")); vm_compute; reflexivity.
Defined.

(** The end date precedes the start date, and the volumes are still
    downloaded. *)
Lemma volume_change_without_range_check_witness :
  date_ltb (mkdate 2020 1 1) (mkdate 2020 1 10) = true /\
  run (Sample.volume_change (PyStr "AAPL") d1 d0) =
    ([Lookup (PyStr "AAPL"); DownloadVolume (PyStr "AAPL") d1 d0],
     inr (map (fun '((d, v), l) => (d, v, l))
              (combine [(jan 3, 1000%Z); (jan 6, 2000%Z); (jan 7, 2000%Z);
                        (jan 8, 1500%Z)]
                       (volume_labels [1000%Z; 2000%Z; 2000%Z; 1500%Z])))).
Proof.
  split; [reflexivity|].
  apply (volume_change_without_range_check strptime_ymd ticker_info get_volume
           "AAPL" d1 d0 (Fin 150) (mkdate 2020 1 10) (mkdate 2020 1 1));
    reflexivity.
Defined.

Lemma volume_change_keeps_rows_witness :
  exists tr out,
    run (Sample.volume_change (PyStr "AAPL") d0 d1) = (tr, inr out) /\
    exists tk, PyStr "AAPL" = PyStr tk /\
      Sample.get_volume tk d0 d1 = inr (map (fun '(d, v, _) => (d, v)) out).
Proof.
  do 2 eexists. split; [vm_compute; reflexivity|].
  eapply (volume_change_keeps_rows strptime_ymd ticker_info get_volume
            (PyStr "AAPL") d0 d1); vm_compute; reflexivity.
Defined.

Lemma volume_viz_bars_witness :
  exists tr bars,
    run (Sample.volume_viz (PyStr "AAPL") d0 d1) = (tr, inr bars) /\
    exists out g r,
      run (Sample.volume_change (PyStr "AAPL") d0 d1) = (tr, inr out) /\
      bars = [g; r] /\ bt_color g = "green" /\ bt_color r = "red" /\
      bt_base g = 0%Z /\ bt_base r = 0%Z /\
      (forall d v, In (d, v) (combine (bt_x g) (bt_y g)) <->
         exists i d' v',
           nth_error (map (fun '(d, v, _) => (d, v)) out) (S i) = Some (d, v) /\
           nth_error (map (fun '(d, v, _) => (d, v)) out) i = Some (d', v') /\
           (v' < v)%Z) /\
      (forall d v, In (d, v) (combine (bt_x r) (bt_y r)) <->
         exists i d' v',
           nth_error (map (fun '(d, v, _) => (d, v)) out) (S i) = Some (d, v) /\
           nth_error (map (fun '(d, v, _) => (d, v)) out) i = Some (d', v') /\
           (v < v')%Z).
Proof.
  do 2 eexists. split; [vm_compute; reflexivity|].
  eapply (volume_viz_bars strptime_ymd ticker_info get_volume
            (PyStr "AAPL") d0 d1); vm_compute; reflexivity.
Defined.

Lemma volume_viz_errors_witness :
  run (Faulty.volume_change (PyStr "AAPL") d0 d1)
    = ([Lookup (PyStr "AAPL"); DownloadVolume (PyStr "AAPL") d0 d1],
       inl AttributeError) /\
  run (Faulty.volume_viz (PyStr "AAPL") d0 d1)
    = ([Lookup (PyStr "AAPL"); DownloadVolume (PyStr "AAPL") d0 d1],
       inl UnboundLocalError).
Proof.
  split; [vm_compute; reflexivity|].
  apply (volume_viz_errors strptime_ymd ticker_info Faulty.get_volume
           (PyStr "AAPL") d0 d1 _ AttributeError).
  vm_compute; reflexivity.
Defined.

End ExtraRuns.
